(** * Verification of the microcode trace disassembler
      (src/ucode_dump/models/disasm.py)

    The program is a single function, [main]: it stores the selected CPU
    variant in the global [uasm.cpuid_], loads the two microcode arrays and
    the label table, and walks the addresses of [range(0x7c00)] that are not
    the fourth slot of a quad, printing one disassembly line per address.

    The embedding below follows the source statement by statement.  Python
    integers are [Z]; Python lists are [list]; the label dictionary is a
    [gmap Z string]; text is [string], one [ascii] per code point (so the
    model covers text whose code points are below 256).  Effects (the write
    to the module global, the calls into [uasm], [print], raised exceptions)
    are threaded through a small monad that records every effect in an event
    log. *)

From Equations Require Import Equations.
From stdpp Require Import base decidable option list list_numbers sorting gmap strings.
From Stdlib Require Import ZArith Lia Ascii.

Local Open Scope Z_scope.

(** ** Python built-ins used by [main] *)

Module Py.

(** *** [str.strip()] with no argument

    CPython strips the code points for which [str.isspace] holds.  Below 256
    these are TAB..CR (9..13), FS..US (28..31), SPACE (32), NEL (0x85) and
    NBSP (0xa0). *)

Definition isspace (c : ascii) : bool :=
  let n := N_of_ascii c in
  ((9 <=? n) && (n <=? 13) || (28 <=? n) && (n <=? 32) || (n =? 0x85) || (n =? 0xa0))%N.

Fixpoint lstrip (s : string) : string :=
  match s with
  | EmptyString => EmptyString
  | String c s' => if isspace c then lstrip s' else s
  end.

Fixpoint rstrip (s : string) : string :=
  match s with
  | EmptyString => EmptyString
  | String c s' =>
      match rstrip s' with
      | EmptyString => if isspace c then EmptyString else String c EmptyString
      | r => String c r
      end
  end.

Definition strip (s : string) : string := rstrip (lstrip s).

(** *** [format(n, '0<width>x')], the [{n:04x}] and [{n:012x}] of the f-string

    Lowercase hexadecimal digits of [abs n], most significant first, at
    least one digit; a minus sign for a negative number; zeros between the
    sign and the digits until the whole field has [width] characters.  The
    width is a minimum: a longer number is printed in full. *)

Definition hex_digit (d : Z) : ascii :=
  match d with
  | 0 => "0" | 1 => "1" | 2 => "2" | 3 => "3" | 4 => "4" | 5 => "5"
  | 6 => "6" | 7 => "7" | 8 => "8" | 9 => "9" | 10 => "a" | 11 => "b"
  | 12 => "c" | 13 => "d" | 14 => "e" | _ => "f"
  end%char.

Equations? hex_digits (n : Z) (acc : string) : string by wf (Z.to_nat n) lt :=
  hex_digits n acc with Z_lt_dec n 16 => {
    | left _ := String (hex_digit n) acc;
    | right _ := hex_digits (n / 16) (String (hex_digit (n mod 16)) acc) }.
Proof. apply Z2Nat.inj_lt; [apply Z.div_pos; lia | lia | apply Z.div_lt; lia]. Qed.

Fixpoint zeros (k : nat) : string :=
  match k with
  | O => EmptyString
  | S k' => String "0"%char (zeros k')
  end.

Definition format_0x (width : nat) (n : Z) : string :=
  let digits := hex_digits (Z.abs n) "" in
  let sign := if n <? 0 then "-" else "" in
  sign +:+ zeros (width - String.length sign - String.length digits) +:+ digits.

(** *** [list.__getitem__] with an integer index: a negative index counts
    from the end, an index outside the list raises [IndexError] (here
    [None]). *)

Definition list_getitem {A} (l : list A) (i : Z) : option A :=
  let j := if i <? 0 then i + Z.of_nat (length l) else i in
  if j <? 0 then None else l !! Z.to_nat j.

(** *** [range(n)] and [filter(f, it)] *)

Fixpoint range_from (start : Z) (len : nat) : list Z :=
  match len with
  | O => []
  | S len' => start :: range_from (start + 1) len'
  end.

Definition range (n : Z) : list Z := range_from 0 (Z.to_nat n).

(** *** [os.path.join] (posixpath) *)

Definition startswith_sep (s : string) : bool :=
  match s with String "/" _ => true | _ => false end.

Fixpoint endswith_sep (s : string) : bool :=
  match s with
  | EmptyString => false
  | String c EmptyString => if Ascii.eqb c "/" then true else false
  | String _ s' => endswith_sep s'
  end.

Definition join2 (path b : string) : string :=
  if startswith_sep b then b
  else if (String.eqb path "" || endswith_sep path)%bool then path +:+ b
  else path +:+ "/" +:+ b.

Definition path_join (a : string) (p : list string) : string := foldl join2 a p.

End Py.

(** ** Effects: exceptions, the event log, the interpreter monad *)

(** The exceptions [main] can end with.  [ExternalError name] is an exception
    raised inside [uasm] (by a loader, on a missing or malformed file); the
    other three are raised by the statements of [main] itself. *)
Inductive exn : Type :=
  | AssertionError
  | IndexError
  | KeyError
  | ExternalError (name : string).

(** The attributes of module [uasm] that [main] writes: the global [cpuid_]. *)
Record uasm_globals : Type := UasmGlobals { cpuid_ : string }.

(** Every effect of [main], in program order. *)
Inductive event : Type :=
  | EvSetCpuid (value : string)
  | EvLoadMsArray (path : string)
  | EvLoadLabels (path : string)
  | EvUopDisassemble (uop uaddr : Z)
  | EvProcessSeqword (uaddr uop seqword : Z) (before : bool)
  | EvPrint (line : string).

Record outcome (A : Type) : Type := Outcome {
  result : exn + A;
  globals : uasm_globals;
  events : list event
}.
Arguments Outcome {A} _ _ _.
Arguments result {A} _.
Arguments globals {A} _.
Arguments events {A} _.

Definition M (A : Type) : Type := uasm_globals → outcome A.

Definition ret {A} (a : A) : M A := λ g, Outcome (inr a) g [].

Definition bind {A B} (k : A → M B) (m : M A) : M B := λ g,
  match m g with
  | Outcome (inl e) g' evs => Outcome (inl e) g' evs
  | Outcome (inr a) g' evs =>
      match k a g' with
      | Outcome r g'' evs' => Outcome r g'' (evs ++ evs')
      end
  end.

(** stdpp's monad notations: [x ← m; k] and [m;; k]. *)
#[global] Instance M_ret : MRet M := @ret.
#[global] Instance M_bind : MBind M := @bind.

Definition raise {A} (e : exn) : M A := λ g, Outcome (inl e) g [].

Definition emit (ev : event) : M unit := λ g, Outcome (inr tt) g [ev].

(** [assert(c)] *)
Definition py_assert (c : bool) : M unit :=
  if c then ret tt else raise AssertionError.

(** [print(line)]: one line on standard output. *)
Definition print (line : string) : M unit := emit (EvPrint line).

(** [l[i]] on a list *)
Definition getitem {A} (l : list A) (i : Z) : M A :=
  match Py.list_getitem l i with
  | Some x => ret x
  | None => raise IndexError
  end.

(** [d[k]] on a dictionary *)
Definition dict_getitem (d : gmap Z string) (k : Z) : M string :=
  match d !! k with
  | Some v => ret v
  | None => raise KeyError
  end.

(** [for x in l: body x]: the loop stops at the first iteration that raises. *)
Fixpoint for_in {A} (l : list A) (body : A → M unit) : M unit :=
  match l with
  | [] => ret tt
  | x :: l' => body x;; for_in l' body
  end.

(** The elements of [l] on which [for x in l: body x] runs its body: all of
    them up to and including the first one whose iteration raises. *)
Fixpoint iterated {A} (l : list A) (body : A → M unit) (g : uasm_globals) : list A :=
  match l with
  | [] => []
  | x :: l' =>
      let o := body x g in
      x :: match result o with
           | inl _ => []
           | inr _ => iterated l' body (globals o)
           end
  end.

(** The lines written to standard output, in order. *)
Definition stdout (evs : list event) : list string :=
  omap (λ ev, match ev with EvPrint line => Some line | _ => None end) evs.

(** ** Module [uasm]

    [uasm] is imported by the program; only its interface is used here.
    The two loaders read files and may raise ([inl name]: the exception
    [name] is raised); the two decoders return text.  All four may read the
    module's globals ([cpuid_] selects the encoding tables), none of them
    writes [cpuid_]. *)
Class Uasm : Type := {
  load_ms_array_str_data : uasm_globals → string → string + list Z;
  load_labels : uasm_globals → string → string + gmap Z string;
  uop_disassemble : uasm_globals → Z → Z → string;
  process_seqword : uasm_globals → Z → Z → Z → bool → string
}.

Section Program.
Context {U : Uasm}.

(** The outcome of a call into [uasm] that may raise. *)
Definition external {A} (r : string + A) : exn + A :=
  match r with
  | inl name => inl (ExternalError name)
  | inr a => inr a
  end.

Definition call_load_ms_array_str_data (path : string) : M (list Z) := λ g,
  Outcome (external (load_ms_array_str_data g path)) g [EvLoadMsArray path].

Definition call_load_labels (path : string) : M (gmap Z string) := λ g,
  Outcome (external (load_labels g path)) g [EvLoadLabels path].

Definition call_uop_disassemble (uop uaddr : Z) : M string := λ g,
  Outcome (inr (uop_disassemble g uop uaddr)) g [EvUopDisassemble uop uaddr].

Definition call_process_seqword (uaddr uop seqword : Z) (before : bool) : M string := λ g,
  Outcome (inr (process_seqword g uaddr uop seqword before)) g
          [EvProcessSeqword uaddr uop seqword before].

(** [uasm.cpuid_ = cpuid] *)
Definition set_cpuid_ (value : string) : M unit := λ _,
  Outcome (inr tt) (UasmGlobals value) [EvSetCpuid value].

(** ** The program *)

(** [trace = filter(lambda x: x % 4 != 3, range(0x7c00))] *)
Definition trace : list Z := filter (λ x, x `mod` 4 ≠ 3) (Py.range 0x7c00).

(** The sequence has 23808 elements: proofs reason about it, they never
    enumerate it. *)
#[global] Opaque trace.
#[global] Arguments trace : simpl never.

(** The f-string of the last [print] of the loop body. *)
Definition data_line (uaddr uop : Z)
    (disasm_seqw_before disasm_uop disasm_seqw_after : string) : string :=
  "U" +:+ Py.format_0x 4 uaddr +:+ ": " +:+ Py.format_0x 12 uop +:+ " " +:+
  disasm_seqw_before +:+ disasm_uop +:+ " " +:+ disasm_seqw_after.

(** The body of [for uaddr in trace:]. *)
Definition loop_body (ucode seqwords : list Z) (labels : gmap Z string)
    (uaddr : Z) : M unit :=
  py_assert (uaddr <? 0x7c00);;
  (if (uaddr `mod` 4 =? 0) && (uaddr >? 0) then print "" else ret tt);;
  uop ← getitem ucode uaddr;
  seqword ← getitem seqwords (uaddr `div` 4 * 4);
  disasm_uop ← call_uop_disassemble uop uaddr;
  let disasm_uop := Py.strip disasm_uop in
  disasm_seqw_before ← call_process_seqword uaddr uop seqword true;
  let disasm_seqw_before := Py.strip disasm_seqw_before in
  disasm_seqw_after ← call_process_seqword uaddr uop seqword false;
  let disasm_seqw_after := Py.strip disasm_seqw_after in
  let disasm_seqw_before :=
    if negb (String.eqb disasm_seqw_before "")
    then disasm_seqw_before +:+ " " else disasm_seqw_before in
  (if bool_decide (is_Some (labels !! uaddr))
   then (name ← dict_getitem labels uaddr; print (name +:+ ":"))
   else ret tt);;
  print (data_line uaddr uop disasm_seqw_before disasm_uop disasm_seqw_after).

Definition trace_loop (ucode seqwords : list Z) (labels : gmap Z string) : M unit :=
  for_in trace (loop_body ucode seqwords labels).

Definition arrays_dump_dir : string := ".".

(** The default of the command-line option [--cpuid]. *)
Definition default_cpuid : string := "0x000506CA".

Definition main (cpuid : string) : M unit :=
  set_cpuid_ cpuid;;
  ucode ← call_load_ms_array_str_data
            (Py.path_join arrays_dump_dir [cpuid; "ms_array0.txt"]);
  seqwords ← call_load_ms_array_str_data
               (Py.path_join arrays_dump_dir [cpuid; "ms_array1.txt"]);
  labels ← call_load_labels (Py.path_join arrays_dump_dir ["labels.csv"]);
  trace_loop ucode seqwords labels.

End Program.

(** ** The run of [main]: what was loaded, which addresses were visited,
    what each iteration emitted *)

Section Run.
Context {U : Uasm}.

Definition ucode_path (cpuid : string) : string :=
  Py.path_join arrays_dump_dir [cpuid; "ms_array0.txt"].
Definition seqwords_path (cpuid : string) : string :=
  Py.path_join arrays_dump_dir [cpuid; "ms_array1.txt"].
Definition labels_path : string :=
  Py.path_join arrays_dump_dir ["labels.csv"].

(** The three stores [main] loads ([ucode], [seqwords], [labels]); [None]
    when one of the loaders raises.  The loaders run after the assignment to
    [uasm.cpuid_], so they see the global set to [cpuid]. *)
Definition stores (cpuid : string) : option (list Z * list Z * gmap Z string) :=
  let g := UasmGlobals cpuid in
  match load_ms_array_str_data g (ucode_path cpuid) with
  | inl _ => None
  | inr ucode =>
      match load_ms_array_str_data g (seqwords_path cpuid) with
      | inl _ => None
      | inr seqwords =>
          match load_labels g labels_path with
          | inl _ => None
          | inr labels => Some (ucode, seqwords, labels)
          end
      end
  end.

(** The events of [main] before the loop: the assignment and the loader
    calls, up to and including the first loader that raises. *)
Definition prelude_events (cpuid : string) : list event :=
  let g := UasmGlobals cpuid in
  EvSetCpuid cpuid :: EvLoadMsArray (ucode_path cpuid) ::
  match load_ms_array_str_data g (ucode_path cpuid) with
  | inl _ => []
  | inr _ =>
      EvLoadMsArray (seqwords_path cpuid) ::
      match load_ms_array_str_data g (seqwords_path cpuid) with
      | inl _ => []
      | inr _ => [EvLoadLabels labels_path]
      end
  end.

(** The addresses on which the run of [main] executes the loop body. *)
Definition visited (cpuid : string) : list Z :=
  match stores cpuid with
  | Some (ucode, seqwords, labels) =>
      iterated trace (loop_body ucode seqwords labels) (UasmGlobals cpuid)
  | None => []
  end.

(** The events of the iteration of the loop body for [uaddr]. *)
Definition emitted (cpuid : string) (uaddr : Z) : list event :=
  match stores cpuid with
  | Some (ucode, seqwords, labels) =>
      events (loop_body ucode seqwords labels uaddr (UasmGlobals cpuid))
  | None => []
  end.

End Run.

(** ** Summary of one iteration

    The events of a completed iteration, piece by piece; [loop_body_ok]
    below proves that this is what [loop_body] produces. *)

Section Summary.
Context {U : Uasm}.

Definition separator_events (uaddr : Z) : list event :=
  if (uaddr `mod` 4 =? 0) && (uaddr >? 0) then [EvPrint ""] else [].

Definition decode_events (uaddr uop seqword : Z) : list event :=
  [EvUopDisassemble uop uaddr;
   EvProcessSeqword uaddr uop seqword true;
   EvProcessSeqword uaddr uop seqword false].

Definition label_events (labels : gmap Z string) (uaddr : Z) : list event :=
  match labels !! uaddr with
  | Some name => [EvPrint (name +:+ ":")]
  | None => []
  end.

Definition rendered_line (g : uasm_globals) (uaddr uop seqword : Z) : string :=
  let disasm_uop := Py.strip (uop_disassemble g uop uaddr) in
  let disasm_seqw_before := Py.strip (process_seqword g uaddr uop seqword true) in
  let disasm_seqw_after := Py.strip (process_seqword g uaddr uop seqword false) in
  data_line uaddr uop
    (if negb (String.eqb disasm_seqw_before "")
     then disasm_seqw_before +:+ " " else disasm_seqw_before)
    disasm_uop disasm_seqw_after.

Definition iteration_events (g : uasm_globals) (labels : gmap Z string)
    (uaddr uop seqword : Z) : list event :=
  separator_events uaddr ++ decode_events uaddr uop seqword ++
  label_events labels uaddr ++ [EvPrint (rendered_line g uaddr uop seqword)].

End Summary.

(** ** Notions of the specification *)

(** The base address of the quad of [a]: [base(a) = a - (a mod 4)]. *)
Definition quad_base (a : Z) : Z := a - a `mod` 4.

(** [n] as exactly [k] lowercase hexadecimal digits, zero-padded: the
    [k - 1] digit rendering of [n / 16] followed by the digit [n mod 16]. *)
Fixpoint hex_fixed (k : nat) (n : Z) : string :=
  match k with
  | O => ""
  | S k' => hex_fixed k' (n `div` 16) +:+ String (Py.hex_digit (n `mod` 16)) ""
  end.

(** Reading a string of lowercase hexadecimal digits back: the value of a
    digit is its position in the alphabet. *)
Definition hex_alphabet : string := "0123456789abcdef".

Fixpoint position_from (i : Z) (c : ascii) (alphabet : string) : option Z :=
  match alphabet with
  | EmptyString => None
  | String d rest => if Ascii.eqb c d then Some i else position_from (i + 1) c rest
  end.

Definition hex_digit_value (c : ascii) : option Z := position_from 0 c hex_alphabet.

Fixpoint hex_value_from (acc : Z) (s : string) : option Z :=
  match s with
  | EmptyString => Some acc
  | String c s' =>
      match hex_digit_value c with
      | Some d => hex_value_from (16 * acc + d) s'
      | None => None
      end
  end.

Definition hex_value (s : string) : option Z := hex_value_from 0 s.

(** First and last character of a string; strings made of white space. *)
Definition first_char (s : string) : option ascii :=
  match s with
  | EmptyString => None
  | String c _ => Some c
  end.

Fixpoint last_char (s : string) : option ascii :=
  match s with
  | EmptyString => None
  | String c EmptyString => Some c
  | String _ s' => last_char s'
  end.

Fixpoint all_space (s : string) : bool :=
  match s with
  | EmptyString => true
  | String c s' => Py.isspace c && all_space s'
  end.

(** A store has an entry for every address of [0, 0x7c00). *)
Definition covers_range {A} (store : list A) : Prop :=
  0x7c00 ≤ Z.of_nat (length store).

(** The output the specification prescribes for a visited address [a]
    (section 4.5, steps 2a, 2g and 2h): a blank separator line when [a] opens
    a quad other than the first, a label line when [a] has a label, and the
    data line in its fixed format. *)
Definition spec_separator (a : Z) : list string :=
  if decide (a `mod` 4 = 0 ∧ 0 < a) then [""] else [].

Definition spec_label (labels : gmap Z string) (a : Z) : list string :=
  match labels !! a with
  | Some name => [name +:+ ":"]
  | None => []
  end.

Definition spec_before_field (before : string) : string :=
  if decide (before = "") then "" else before +:+ " ".

Definition spec_data_line (a word : Z) (before mnemonic after : string) : string :=
  "U" +:+ hex_fixed 4 a +:+ ": " +:+ hex_fixed 12 word +:+ " " +:+
  spec_before_field before +:+ mnemonic +:+ " " +:+ after.

(** ** A small instance of [uasm] for examples

    Both arrays hold [0x7c00] words (the word at address [a] is [a + 1], the
    control word of a quad is its base address), address 4 carries the label
    [L4], every micro-op decodes to [OP], and the control word yields the
    annotation [SEQW GOTO] after the micro-op of the third slot of a quad. *)
Definition demo_ucode : list Z := (λ a, a + 1) <$> Py.range 0x7c00.
Definition demo_seqwords : list Z := (λ a, a - a `mod` 4) <$> Py.range 0x7c00.
Definition demo_labels : gmap Z string := {[ 4 := "L4" ]}.

Definition demo_uasm : Uasm := {|
  load_ms_array_str_data := λ _ path,
    if String.eqb path "./demo/ms_array0.txt" then inr demo_ucode
    else if String.eqb path "./demo/ms_array1.txt" then inr demo_seqwords
    else inl "FileNotFoundError";
  load_labels := λ _ _, inr demo_labels;
  uop_disassemble := λ _ _ _, " OP ";
  process_seqword := λ _ uaddr _ _ before,
    if before then "" else if uaddr `mod` 4 =? 2 then " SEQW GOTO " else ""
|}.

(** The globals of [uasm] before [main] runs in the examples. *)
Definition demo_globals : uasm_globals := UasmGlobals "".

(** The same instance with words wider than 48 bits: the word at address
    [a] is [2^48 + a]. *)
Definition wide_ucode : list Z := (λ a, 2 ^ 48 + a) <$> Py.range 0x7c00.

Definition wide_uasm : Uasm := {|
  load_ms_array_str_data := λ _ path,
    if String.eqb path "./demo/ms_array0.txt" then inr wide_ucode
    else if String.eqb path "./demo/ms_array1.txt" then inr demo_seqwords
    else inl "FileNotFoundError";
  load_labels := λ _ _, inr demo_labels;
  uop_disassemble := λ _ _ _, " OP ";
  process_seqword := λ _ _ _ _ _, ""
|}.

(** ** Further notions used to describe runs *)

(** The decode calls of a log, in order: the address a call is made for and
    its phase ([None] for the micro-op decoder, [Some true] for the before
    phase and [Some false] for the after phase of the sequence word). *)
Definition decode_call (ev : event) : option (Z * option bool) :=
  match ev with
  | EvUopDisassemble _ uaddr => Some (uaddr, None)
  | EvProcessSeqword uaddr _ _ before => Some (uaddr, Some before)
  | _ => None
  end.

Definition decode_calls (evs : list event) : list (Z * option bool) :=
  omap decode_call evs.

(** The three calls of a completed iteration. *)
Definition calls_of (uaddr : Z) : list (Z * option bool) :=
  [(uaddr, None); (uaddr, Some true); (uaddr, Some false)].

(** The three addresses of quad [q] that the filter keeps. *)
Definition quad_slots (q : Z) : list Z := [4 * q; 4 * q + 1; 4 * q + 2].

(** Reading the address and the word back from a data line: the four
    characters after the leading letter, and the twelve characters after
    the colon and the space. *)
Definition line_address (line : string) : option Z :=
  hex_value (String.substring 1 4 line).

Definition line_word (line : string) : option Z :=
  hex_value (String.substring 7 12 line).

(** The directory [os.path.join(".", cpuid)] with the separator that the
    next [join] puts after it. *)
Definition dump_dir (cpuid : string) : string :=
  (if Py.startswith_sep cpuid then "" else "./") +:+ cpuid +:+
  (if (String.eqb cpuid "" || Py.endswith_sep cpuid)%bool then "" else "/").

(** An instance of [uasm] whose first array file is truncated after five
    words. *)
Definition short_uasm : Uasm := {|
  load_ms_array_str_data := λ _ path,
    if String.eqb path "./demo/ms_array0.txt" then inr [1; 2; 3; 4; 5]
    else inr demo_seqwords;
  load_labels := λ _ _, inr demo_labels;
  uop_disassemble := λ _ _ _, " OP ";
  process_seqword := λ _ _ _ _ _, ""
|}.

(** An instance of [uasm] whose array files are empty. *)
Definition empty_uasm : Uasm := {|
  load_ms_array_str_data := λ _ _, inr [];
  load_labels := λ _ _, inr demo_labels;
  uop_disassemble := λ _ _ _, " OP ";
  process_seqword := λ _ _ _ _ _, ""
|}.

Example strip_ex : Py.strip "  LDZX  r1  " = "LDZX  r1". Proof. reflexivity. Qed.
Example fmt_ex1 : Py.format_0x 4 0x7bfe = "7bfe". Proof. reflexivity. Qed.
Example fmt_ex2 : Py.format_0x 12 0x1234 = "000000001234". Proof. reflexivity. Qed.
Example fmt_ex3 : Py.format_0x 4 (-1) = "-001". Proof. reflexivity. Qed.
Example fmt_ex4 : Py.format_0x 4 0x12345 = "12345". Proof. reflexivity. Qed.
Example join_ex : Py.path_join "." ["0x000506CA"; "ms_array0.txt"] = "./0x000506CA/ms_array0.txt".
Proof. reflexivity. Qed.

(** * Properties *)

(** ** Strings *)

Lemma app_empty_l (s : string) : "" +:+ s = s.
Proof. reflexivity. Qed.

Lemma app_String (c : ascii) (s t : string) : String c s +:+ t = String c (s +:+ t).
Proof. reflexivity. Qed.

Lemma app_empty_r (s : string) : s +:+ "" = s.
Proof. induction s as [|c s IH]; [done|]. by rewrite app_String, IH. Qed.

Lemma app_assoc_str (s t u : string) : (s +:+ t) +:+ u = s +:+ t +:+ u.
Proof. induction s as [|c s IH]; [done|]. by rewrite !app_String, IH. Qed.

Lemma length_app_str (s t : string) :
  String.length (s +:+ t) = (String.length s + String.length t)%nat.
Proof. induction s as [|c s IH]; [done|]. rewrite app_String. simpl. by rewrite IH. Qed.

Lemma last_char_snoc (s : string) (c : ascii) : last_char (s +:+ String c "") = Some c.
Proof.
  induction s as [|d s IH]; [done|].
  rewrite app_String. simpl. rewrite IH.
  by destruct (s +:+ String c "") eqn:E; [destruct s; discriminate E|].
Qed.

(** ** [str.strip] removes exactly the surrounding white space *)

Lemma lstrip_split (s : string) :
  ∃ l, s = l +:+ Py.lstrip s ∧ all_space l = true.
Proof.
  induction s as [|c s (l & Hl & Hsp)]; [by exists ""|].
  simpl. destruct (Py.isspace c) eqn:Hc.
  - exists (String c l). rewrite app_String, <- Hl. simpl. by rewrite Hc, Hsp.
  - by exists "".
Qed.

Lemma lstrip_first (s : string) (c : ascii) :
  first_char (Py.lstrip s) = Some c → Py.isspace c = false.
Proof.
  induction s as [|d s IH]; [done|].
  simpl. destruct (Py.isspace d) eqn:Hd; [done|].
  simpl. by intros [= <-].
Qed.

Lemma rstrip_split (s : string) :
  ∃ r, s = Py.rstrip s +:+ r ∧ all_space r = true.
Proof.
  induction s as [|c s (r & Hr & Hsp)]; [by exists ""|].
  simpl. destruct (Py.rstrip s) as [|d t] eqn:E.
  - destruct (Py.isspace c) eqn:Hc.
    + exists (String c r). rewrite app_empty_l in Hr |- *. subst s. simpl. by rewrite Hc, Hsp.
    + exists r. by rewrite app_String, <- Hr.
  - exists r. by rewrite app_String, <- Hr.
Qed.

Lemma rstrip_last (s : string) (c : ascii) :
  last_char (Py.rstrip s) = Some c → Py.isspace c = false.
Proof.
  induction s as [|d s IH]; [done|].
  simpl. destruct (Py.rstrip s) as [|e t] eqn:E.
  - destruct (Py.isspace d) eqn:Hd; [done|]. simpl. by intros [= <-].
  - done.
Qed.

Lemma rstrip_first (s : string) (c : ascii) :
  first_char (Py.rstrip s) = Some c → first_char s = Some c.
Proof.
  destruct s as [|d s]; [done|].
  simpl. destruct (Py.rstrip s); [destruct (Py.isspace d)|]; done.
Qed.

Lemma strip_split (s : string) :
  ∃ l r, s = l +:+ Py.strip s +:+ r ∧ all_space l = true ∧ all_space r = true.
Proof.
  destruct (lstrip_split s) as (l & Hl & Hlsp).
  destruct (rstrip_split (Py.lstrip s)) as (r & Hr & Hrsp).
  exists l, r. unfold Py.strip. by rewrite <- Hr, <- Hl.
Qed.

Lemma strip_first (s : string) (c : ascii) :
  first_char (Py.strip s) = Some c → Py.isspace c = false.
Proof. intros H. by apply (lstrip_first s), rstrip_first. Qed.

Lemma strip_last (s : string) (c : ascii) :
  last_char (Py.strip s) = Some c → Py.isspace c = false.
Proof. apply rstrip_last. Qed.

(** ** Hexadecimal formatting *)

Lemma hex_digits_small (n : Z) (acc : string) :
  n < 16 → Py.hex_digits n acc = String (Py.hex_digit n) acc.
Proof. intros H. simp hex_digits. destruct (Z_lt_dec n 16); [done|lia]. Qed.

Lemma hex_digits_step (n : Z) (acc : string) :
  16 ≤ n →
  Py.hex_digits n acc = Py.hex_digits (n `div` 16) (String (Py.hex_digit (n `mod` 16)) acc).
Proof. intros H. rewrite Py.hex_digits_equation_1. destruct (Z_lt_dec n 16); [lia|done]. Qed.

(** Induction along the division by 16 that [hex_digits] performs. *)
Lemma div16_ind (P : Z → Prop) :
  (∀ n, n < 16 → P n) → (∀ n, 16 ≤ n → P (n `div` 16) → P n) → ∀ n, P n.
Proof.
  intros Hsmall Hstep n.
  induction (Z.lt_wf 0 n) as [n _ IH].
  destruct (Z_lt_dec n 16) as [?|?]; [by apply Hsmall|].
  apply Hstep; [lia|]. apply IH. split; [apply Z.div_pos; lia | apply Z.div_lt; lia].
Qed.

Lemma hex_digits_acc (n : Z) (acc : string) :
  Py.hex_digits n acc = Py.hex_digits n "" +:+ acc.
Proof.
  revert acc. induction n as [n Hn | n Hn IH] using div16_ind; intros acc.
  - by rewrite !hex_digits_small.
  - rewrite !(hex_digits_step n) by done.
    rewrite IH, (IH (String _ "")). by rewrite app_assoc_str.
Qed.

Lemma hex_digits_snoc (n : Z) :
  16 ≤ n →
  Py.hex_digits n "" = Py.hex_digits (n `div` 16) "" +:+ String (Py.hex_digit (n `mod` 16)) "".
Proof. intros H. by rewrite hex_digits_step, hex_digits_acc. Qed.

Lemma zeros_snoc (k : nat) : Py.zeros k +:+ "0" = Py.zeros (S k).
Proof. induction k as [|k IH]; [done|]. simpl. by rewrite app_String, IH. Qed.

Lemma length_zeros (k : nat) : String.length (Py.zeros k) = k.
Proof. induction k as [|k IH]; [done|]. simpl. by rewrite IH. Qed.

Lemma hex_fixed_0 (k : nat) : hex_fixed k 0 = Py.zeros k.
Proof.
  induction k as [|k IH]; [done|].
  cbn [hex_fixed]. rewrite Zdiv_0_l, Zmod_0_l, IH. apply zeros_snoc.
Qed.

Lemma length_hex_fixed (k : nat) (n : Z) : String.length (hex_fixed k n) = k.
Proof.
  revert n. induction k as [|k IH]; intros n; [done|].
  cbn [hex_fixed]. rewrite length_app_str, IH. simpl. lia.
Qed.

(** Number of digits [hex_digits] produces. *)
Lemma length_hex_digits_le (k : nat) (n : Z) :
  n < 16 ^ Z.of_nat (S k) → (String.length (Py.hex_digits n "") ≤ S k)%nat.
Proof.
  revert n. induction k as [|k IH]; intros n Hn.
  - rewrite hex_digits_small by lia. simpl. lia.
  - destruct (Z_lt_dec n 16) as [?|?].
    + rewrite hex_digits_small by lia. simpl. lia.
    + rewrite hex_digits_snoc, length_app_str by lia. simpl.
      assert (n `div` 16 < 16 ^ Z.of_nat (S k)).
      { apply Z.div_lt_upper_bound; [lia|].
        rewrite (Nat2Z.inj_succ (S k)), Z.pow_succ_r in Hn by lia. lia. }
      specialize (IH _ H). lia.
Qed.

Lemma length_hex_digits_gt (k : nat) (n : Z) :
  16 ^ Z.of_nat k ≤ n → (k < String.length (Py.hex_digits n ""))%nat.
Proof.
  revert n. induction k as [|k IH]; intros n Hn.
  - destruct (Z_lt_dec n 16) as [?|?].
    + rewrite hex_digits_small by lia. simpl. lia.
    + rewrite hex_digits_snoc, length_app_str by lia. simpl. lia.
  - rewrite Nat2Z.inj_succ, Z.pow_succ_r in Hn by lia.
    assert (16 ≤ n) by (pose proof (Z.pow_pos_nonneg 16 (Z.of_nat k)); lia).
    rewrite hex_digits_snoc, length_app_str by lia. simpl.
    assert (16 ^ Z.of_nat k ≤ n `div` 16) by (apply Z.div_le_lower_bound; lia).
    specialize (IH _ H0). lia.
Qed.

(** Zero-padding the digits of an in-range number gives the fixed-width
    rendering. *)
Lemma zeros_hex_digits_fixed (k : nat) (n : Z) :
  0 ≤ n < 16 ^ Z.of_nat (S k) →
  Py.zeros (S k - String.length (Py.hex_digits n "")) +:+ Py.hex_digits n ""
  = hex_fixed (S k) n.
Proof.
  revert n. induction k as [|k IH]; intros n Hn.
  - rewrite hex_digits_small by lia. cbn [hex_fixed].
    rewrite Z.mod_small by lia. done.
  - destruct (Z_lt_dec n 16) as [?|?].
    + rewrite hex_digits_small by lia.
      change (hex_fixed (S (S k)) n)
        with (hex_fixed (S k) (n `div` 16) +:+ String (Py.hex_digit (n `mod` 16)) "").
      rewrite Z.div_small, Z.mod_small, hex_fixed_0 by lia. done.
    + assert (0 ≤ n `div` 16 < 16 ^ Z.of_nat (S k)) as Hdiv.
      { split; [apply Z.div_pos; lia|]. apply Z.div_lt_upper_bound; [lia|].
        rewrite (Nat2Z.inj_succ (S k)), Z.pow_succ_r in Hn by lia. lia. }
      change (hex_fixed (S (S k)) n)
        with (hex_fixed (S k) (n `div` 16) +:+ String (Py.hex_digit (n `mod` 16)) "").
      rewrite <- (IH _ Hdiv), hex_digits_snoc, length_app_str, app_assoc_str by lia.
      simpl String.length.
      by replace (S (S k) - (String.length (Py.hex_digits (n `div` 16) "") + 1))%nat
        with (S k - String.length (Py.hex_digits (n `div` 16) ""))%nat by lia.
Qed.

(** [format(n, '0<k>x')] of a number that fits [k] digits is its fixed-width
    rendering. *)
Lemma format_0x_fixed (k : nat) (n : Z) :
  0 ≤ n < 16 ^ Z.of_nat (S k) → Py.format_0x (S k) n = hex_fixed (S k) n.
Proof.
  intros Hn. unfold Py.format_0x.
  rewrite (proj2 (Z.ltb_ge n 0)), Z.abs_eq, app_empty_l by lia.
  change (String.length "") with 0%nat. rewrite Nat.sub_0_r.
  by apply zeros_hex_digits_fixed.
Qed.

(** A number that needs more than [k] digits is printed in full. *)
Lemma format_0x_wide (k : nat) (n : Z) :
  16 ^ Z.of_nat k ≤ n → Py.format_0x k n = Py.hex_digits n "".
Proof.
  intros Hn. pose proof (length_hex_digits_gt k n Hn) as Hlen.
  assert (0 < n) by (pose proof (Z.pow_pos_nonneg 16 (Z.of_nat k)); lia).
  unfold Py.format_0x.
  rewrite (proj2 (Z.ltb_ge n 0)), Z.abs_eq, app_empty_l by lia.
  change (String.length "") with 0%nat.
  by replace (k - 0 - String.length (Py.hex_digits n ""))%nat with 0%nat by lia.
Qed.

(** Reading the digits back gives the number: nothing is truncated. *)
Lemma hex_value_from_app (s t : string) (acc : Z) :
  hex_value_from acc (s +:+ t) = hex_value_from acc s ≫= λ v, hex_value_from v t.
Proof.
  revert acc. induction s as [|c s IH]; intros acc; [done|].
  rewrite app_String. simpl. destruct (hex_digit_value c); [apply IH|done].
Qed.

Lemma hex_digit_value_digit (d : Z) :
  0 ≤ d < 16 → hex_digit_value (Py.hex_digit d) = Some d.
Proof.
  intros [H0 H16]. destruct d as [|p|p]; [done| |lia].
  do 4 (try destruct p as [p|p|]); try done; lia.
Qed.

Lemma hex_value_hex_digits (n : Z) : 0 ≤ n → hex_value (Py.hex_digits n "") = Some n.
Proof.
  unfold hex_value. induction n as [n Hn | n Hn IH] using div16_ind; intros H0.
  - rewrite hex_digits_small by done. simpl.
    rewrite hex_digit_value_digit by lia. done.
  - rewrite hex_digits_snoc, hex_value_from_app, IH by (try apply Z.div_pos; lia).
    simpl. rewrite hex_digit_value_digit by (apply Z.mod_pos_bound; lia).
    f_equal. pose proof (Z.div_mod n 16). lia.
Qed.

Lemma hex_value_hex_fixed (k : nat) (n : Z) :
  0 ≤ n < 16 ^ Z.of_nat k → hex_value (hex_fixed k n) = Some n.
Proof.
  unfold hex_value. revert n. induction k as [|k IH]; intros n Hn.
  - simpl in *. f_equal. lia.
  - cbn [hex_fixed]. rewrite hex_value_from_app, IH.
    + simpl. rewrite hex_digit_value_digit by (apply Z.mod_pos_bound; lia).
      f_equal. pose proof (Z.div_mod n 16). lia.
    + rewrite Nat2Z.inj_succ, Z.pow_succ_r in Hn by lia.
      split; [apply Z.div_pos; lia | apply Z.div_lt_upper_bound; lia].
Qed.

(** ** The address sequence *)

Lemma range_from_seqZ (m : Z) (k : nat) : Py.range_from m k = seqZ m (Z.of_nat k).
Proof.
  revert m. induction k as [|k IH]; intros m; [done|].
  rewrite seqZ_cons by lia. cbn [Py.range_from]. rewrite IH.
  f_equal. f_equal; lia.
Qed.

Lemma range_seqZ (n : Z) : Py.range n = seqZ 0 n.
Proof.
  unfold Py.range. rewrite range_from_seqZ.
  destruct (Z_le_dec 0 n) as [?|?]; [by rewrite Z2Nat.id|].
  rewrite Z2Nat.nonpos by lia. by rewrite !seqZ_nil by lia.
Qed.

Lemma trace_eq : trace = filter (λ x, x `mod` 4 ≠ 3) (seqZ 0 0x7c00).
Proof. with_strategy transparent [trace] (unfold trace). by rewrite range_seqZ. Qed.

Lemma elem_of_trace (a : Z) : a ∈ trace ↔ 0 ≤ a < 0x7c00 ∧ a `mod` 4 ≠ 3.
Proof.
  rewrite trace_eq, list_elem_of_filter, elem_of_seqZ. lia.
Qed.

Lemma StronglySorted_seqZ (m n : Z) : StronglySorted Z.lt (seqZ m n).
Proof.
  destruct (Z_le_dec n 0) as [?|?]; [rewrite seqZ_nil by lia; constructor|].
  rewrite <- (Z2Nat.id n) by lia. generalize (Z.to_nat n) as k. clear.
  intros k. revert m. induction k as [|k IH]; intros m.
  - rewrite seqZ_nil by lia. constructor.
  - rewrite seqZ_cons by lia.
    replace (Z.pred (Z.of_nat (S k))) with (Z.of_nat k) by lia.
    constructor; [apply IH|]. apply Forall_seqZ. lia.
Qed.

Lemma StronglySorted_filter {A} (R : relation A) (P : A → Prop)
    `{∀ x, Decision (P x)} (l : list A) :
  StronglySorted R l → StronglySorted R (filter P l).
Proof.
  induction 1 as [|x l Hl IH Hx]; [constructor|].
  rewrite filter_cons. case_decide; [|done].
  constructor; [done|].
  rewrite Forall_forall in Hx |- *. intros y [_ Hy]%list_elem_of_filter. by apply Hx.
Qed.

Lemma trace_sorted : StronglySorted Z.lt trace.
Proof. rewrite trace_eq. apply StronglySorted_filter, StronglySorted_seqZ. Qed.

Lemma trace_head : head trace = Some 0.
Proof. rewrite trace_eq. by rewrite seqZ_cons, filter_cons_True. Qed.

Lemma trace_last : last trace = Some 0x7bfe.
Proof.
  rewrite trace_eq.
  change 0x7c00 with (0x7bfe + 2). rewrite seqZ_app, filter_app by done.
  change (filter _ (seqZ (0 + 0x7bfe) 2)) with [0x7bfe].
  apply last_snoc.
Qed.

(** In a sorted list without repetition, a prefix that holds [y] holds every
    element of the list below [y]. *)
Lemma prefix_sorted_closed (l1 l : list Z) (x y : Z) :
  StronglySorted Z.lt l → l1 `prefix_of` l → y ∈ l1 → x ∈ l → x < y → x ∈ l1.
Proof.
  intros Hs [l2 ->] Hy Hx Hlt.
  apply elem_of_app in Hx as [?|Hx]; [done|].
  pose proof (StronglySorted_app_1_elem_of _ _ _ _ _ Hs Hy Hx). lia.
Qed.

(** ** The [for] loop *)

Lemma iterated_prefix {A} (l : list A) (body : A → M unit) (g : uasm_globals) :
  iterated l body g `prefix_of` l.
Proof.
  revert g. induction l as [|x l IH]; intros g; [done|].
  simpl. apply prefix_cons. destruct (result (body x g)); [apply prefix_nil | apply IH].
Qed.

Section for_in.
Context {A : Type} (body : A → M unit).
Hypothesis body_globals : ∀ x g, globals (body x g) = g.

Lemma for_in_cons (x : A) (l : list A) (g : uasm_globals) :
  for_in (x :: l) body g =
  match result (body x g) with
  | inl e => Outcome (inl e) g (events (body x g))
  | inr _ =>
      let o := for_in l body g in
      Outcome (result o) (globals o) (events (body x g) ++ events o)
  end.
Proof.
  cbn [for_in]. unfold mbind, M_bind, bind.
  pose proof (body_globals x g) as Hg.
  destruct (body x g) as [[e|[]] g' evs]; simpl in *; subst g'; [done|].
  by destruct (for_in l body g).
Qed.

Lemma for_in_globals (l : list A) (g : uasm_globals) : globals (for_in l body g) = g.
Proof.
  induction l as [|x l IH]; [done|].
  rewrite for_in_cons. by destruct (result (body x g)).
Qed.

Lemma for_in_events (l : list A) (g : uasm_globals) :
  events (for_in l body g) = iterated l body g ≫= λ x, events (body x g).
Proof.
  induction l as [|x l IH]; [done|].
  rewrite for_in_cons. cbn [iterated]. rewrite bind_cons, body_globals.
  destruct (result (body x g)); simpl; [by rewrite app_nil_r | by rewrite IH].
Qed.

Lemma for_in_result_ok (l : list A) (g : uasm_globals) :
  (∀ x, x ∈ l → result (body x g) = inr ()) →
  result (for_in l body g) = inr () ∧ iterated l body g = l.
Proof.
  induction l as [|x l IH]; intros Hok; [done|].
  rewrite for_in_cons. cbn [iterated]. rewrite body_globals.
  rewrite (Hok x) by left. simpl.
  destruct IH as [-> ->]; [|done]. intros y Hy. apply Hok. by right.
Qed.

Lemma for_in_result_err (l : list A) (g : uasm_globals) (e : exn) :
  result (for_in l body g) = inl e →
  ∃ x, x ∈ iterated l body g ∧ result (body x g) = inl e.
Proof.
  induction l as [|x l IH]; [done|].
  rewrite for_in_cons. cbn [iterated]. rewrite body_globals.
  destruct (result (body x g)) as [e'|[]] eqn:Hx; simpl.
  - intros [= ->]. exists x. split; [left|done].
  - intros (y & Hy & He)%IH. exists y. split; [by right|done].
Qed.
End for_in.

(** ** One iteration of the loop body *)

Section loop_body.
Context {U : Uasm}.
Context (ucode seqwords : list Z) (labels : gmap Z string).

Lemma div4_mul4 (a : Z) : a `div` 4 * 4 = quad_base a.
Proof. unfold quad_base. pose proof (Z.div_mod a 4). lia. Qed.

Lemma loop_body_assert (uaddr : Z) (g : uasm_globals) :
  0x7c00 ≤ uaddr →
  loop_body ucode seqwords labels uaddr g = Outcome (inl AssertionError) g [].
Proof.
  intros H. unfold loop_body, mbind at 1, M_bind, bind at 1.
  by rewrite (proj2 (Z.ltb_ge uaddr 0x7c00)).
Qed.

Lemma loop_body_no_uop (uaddr : Z) (g : uasm_globals) :
  uaddr < 0x7c00 → Py.list_getitem ucode uaddr = None →
  loop_body ucode seqwords labels uaddr g
  = Outcome (inl IndexError) g (separator_events uaddr).
Proof.
  intros H Hu. unfold loop_body, mbind, M_bind, bind, getitem, separator_events.
  rewrite (proj2 (Z.ltb_lt uaddr 0x7c00)), Hu by done.
  by destruct ((uaddr `mod` 4 =? 0) && (uaddr >? 0)).
Qed.

Lemma loop_body_no_seqword (uaddr uop : Z) (g : uasm_globals) :
  uaddr < 0x7c00 → Py.list_getitem ucode uaddr = Some uop →
  Py.list_getitem seqwords (quad_base uaddr) = None →
  loop_body ucode seqwords labels uaddr g
  = Outcome (inl IndexError) g (separator_events uaddr).
Proof.
  intros H Hu Hs. unfold loop_body, mbind, M_bind, bind, getitem, separator_events.
  rewrite div4_mul4, (proj2 (Z.ltb_lt uaddr 0x7c00)), Hu, Hs by done.
  by destruct ((uaddr `mod` 4 =? 0) && (uaddr >? 0)).
Qed.

Lemma loop_body_ok (uaddr uop seqword : Z) (g : uasm_globals) :
  uaddr < 0x7c00 → Py.list_getitem ucode uaddr = Some uop →
  Py.list_getitem seqwords (quad_base uaddr) = Some seqword →
  loop_body ucode seqwords labels uaddr g
  = Outcome (inr ()) g (iteration_events g labels uaddr uop seqword).
Proof.
  intros H Hu Hs.
  unfold loop_body, mbind, M_bind, bind, getitem, dict_getitem,
    iteration_events, separator_events, label_events.
  rewrite div4_mul4, (proj2 (Z.ltb_lt uaddr 0x7c00)), Hu, Hs by done.
  destruct (labels !! uaddr) as [name|] eqn:Hl;
    [rewrite bool_decide_eq_true_2 by done | rewrite bool_decide_eq_false_2 by (by intros [??])];
    by destruct ((uaddr `mod` 4 =? 0) && (uaddr >? 0)).
Qed.

(** The four cases together. *)
Lemma loop_body_cases (uaddr : Z) (g : uasm_globals) :
  let o := loop_body ucode seqwords labels uaddr g in
  (0x7c00 ≤ uaddr ∧ o = Outcome (inl AssertionError) g []) ∨
  (uaddr < 0x7c00 ∧ o = Outcome (inl IndexError) g (separator_events uaddr) ∧
   (Py.list_getitem ucode uaddr = None ∨
    Py.list_getitem seqwords (quad_base uaddr) = None)) ∨
  (∃ uop seqword,
     uaddr < 0x7c00 ∧ Py.list_getitem ucode uaddr = Some uop ∧
     Py.list_getitem seqwords (quad_base uaddr) = Some seqword ∧
     o = Outcome (inr ()) g (iteration_events g labels uaddr uop seqword)).
Proof.
  intros o. subst o.
  destruct (Z_lt_dec uaddr 0x7c00) as [Hlt|Hge];
    [|left; split; [lia | apply loop_body_assert; lia]].
  right.
  destruct (Py.list_getitem ucode uaddr) as [uop|] eqn:Hu;
    [|left; eauto using loop_body_no_uop].
  destruct (Py.list_getitem seqwords (quad_base uaddr)) as [seqword|] eqn:Hs;
    [|left; eauto using loop_body_no_seqword].
  right. exists uop, seqword. eauto using loop_body_ok.
Qed.

Lemma loop_body_globals (uaddr : Z) (g : uasm_globals) :
  globals (loop_body ucode seqwords labels uaddr g) = g.
Proof.
  destruct (loop_body_cases uaddr g) as [[_ ->]|[(_ & -> & _)|(? & ? & _ & _ & _ & ->)]]; done.
Qed.
End loop_body.

(** ** The run of [main] *)

Section main_run.
Context {U : Uasm}.

Lemma trace_loop_globals ucode seqwords labels g :
  globals (trace_loop ucode seqwords labels g) = g.
Proof. apply for_in_globals, loop_body_globals. Qed.

Lemma main_loaded (cpuid : string) (g : uasm_globals) ucode seqwords labels :
  stores cpuid = Some (ucode, seqwords, labels) →
  main cpuid g =
  let o := trace_loop ucode seqwords labels (UasmGlobals cpuid) in
  Outcome (result o) (UasmGlobals cpuid) (prelude_events cpuid ++ events o).
Proof.
  unfold stores, prelude_events, main, mbind, M_bind, bind, set_cpuid_,
    call_load_ms_array_str_data, call_load_labels, external.
  fold (ucode_path cpuid) (seqwords_path cpuid) labels_path.
  destruct (load_ms_array_str_data _ (ucode_path cpuid)) as [?|u]; [done|].
  destruct (load_ms_array_str_data _ (seqwords_path cpuid)) as [?|s]; [done|].
  destruct (load_labels _ labels_path) as [?|l]; [done|].
  intros [= -> -> ->].
  pose proof (trace_loop_globals ucode seqwords labels (UasmGlobals cpuid)) as Hg.
  destruct (trace_loop ucode seqwords labels (UasmGlobals cpuid)); simpl in *.
  by subst.
Qed.

Lemma main_not_loaded (cpuid : string) (g : uasm_globals) :
  stores cpuid = None →
  ∃ name, main cpuid g
          = Outcome (inl (ExternalError name)) (UasmGlobals cpuid)
                    (prelude_events cpuid).
Proof.
  unfold stores, prelude_events, main, mbind, M_bind, bind, set_cpuid_,
    call_load_ms_array_str_data, call_load_labels, external.
  fold (ucode_path cpuid) (seqwords_path cpuid) labels_path.
  destruct (load_ms_array_str_data _ (ucode_path cpuid)) as [?|u]; [by eexists|].
  destruct (load_ms_array_str_data _ (seqwords_path cpuid)) as [?|s]; [by eexists|].
  destruct (load_labels _ labels_path) as [?|l]; [by eexists|done].
Qed.

Lemma main_globals (cpuid : string) (g : uasm_globals) :
  globals (main cpuid g) = UasmGlobals cpuid.
Proof.
  destruct (stores cpuid) as [[[u s] l]|] eqn:Hst.
  - by rewrite (main_loaded _ _ _ _ _ Hst).
  - by destruct (main_not_loaded cpuid g Hst) as [e ->].
Qed.

(** The log of a run is the prelude followed by the events of the visited
    addresses, in order. *)
Lemma main_events (cpuid : string) (g : uasm_globals) :
  events (main cpuid g) = prelude_events cpuid ++ (visited cpuid ≫= emitted cpuid).
Proof.
  unfold visited, emitted.
  destruct (stores cpuid) as [[[u s] l]|] eqn:Hst.
  - rewrite (main_loaded _ _ _ _ _ Hst). cbn [events]. f_equal.
    apply for_in_events, loop_body_globals.
  - destruct (main_not_loaded cpuid g Hst) as [e ->]. simpl. by rewrite app_nil_r.
Qed.

Lemma visited_prefix (cpuid : string) : visited cpuid `prefix_of` trace.
Proof.
  unfold visited. destruct (stores cpuid) as [[[u s] l]|];
    [apply iterated_prefix | apply prefix_nil].
Qed.

Lemma visited_trace (cpuid : string) (a : Z) : a ∈ visited cpuid → a ∈ trace.
Proof.
  intros Ha. destruct (visited_prefix cpuid) as [k ->].
  apply elem_of_app. by left.
Qed.

Lemma visited_range (cpuid : string) (a : Z) :
  a ∈ visited cpuid → 0 ≤ a < 0x7c00 ∧ a `mod` 4 ≠ 3.
Proof. by intros ?%visited_trace%elem_of_trace. Qed.

Lemma main_result (cpuid : string) (g : uasm_globals) (e : exn) :
  result (main cpuid g) = inl e →
  stores cpuid = None ∨
  ∃ ucode seqwords labels a,
    stores cpuid = Some (ucode, seqwords, labels) ∧ a ∈ visited cpuid ∧
    result (loop_body ucode seqwords labels a (UasmGlobals cpuid)) = inl e.
Proof.
  destruct (stores cpuid) as [[[u s] l]|] eqn:Hst; [|by left].
  rewrite (main_loaded _ _ _ _ _ Hst). cbn [result]. intros He. right.
  apply for_in_result_err in He as (a & Ha & He); [|apply loop_body_globals].
  exists u, s, l, a. unfold visited. by rewrite Hst.
Qed.

(** Every event of the log belongs to the prelude or to the iteration of
    a visited address. *)
Lemma main_event_origin (cpuid : string) (g : uasm_globals) (ev : event) :
  ev ∈ events (main cpuid g) →
  ev ∈ prelude_events cpuid ∨ ∃ b, b ∈ visited cpuid ∧ ev ∈ emitted cpuid b.
Proof.
  rewrite main_events, elem_of_app, list_elem_of_bind.
  intros [?|(b & ? & ?)]; [by left | right; by exists b].
Qed.

Lemma prelude_event_kind (cpuid : string) (ev : event) :
  ev ∈ prelude_events cpuid →
  ev = EvSetCpuid cpuid ∨ (∃ path, ev = EvLoadMsArray path) ∨
  (∃ path, ev = EvLoadLabels path).
Proof.
  unfold prelude_events. intros H.
  repeat case_match;
    repeat (apply elem_of_cons in H as [->|H]; [eauto|]);
    by apply elem_of_nil in H.
Qed.

(** What an iteration emits, for an address below [0x7c00]. *)
Lemma emitted_cases (cpuid : string) ucode seqwords labels (a : Z) :
  stores cpuid = Some (ucode, seqwords, labels) → a < 0x7c00 →
  emitted cpuid a = separator_events a ∨
  ∃ uop seqword,
    Py.list_getitem ucode a = Some uop ∧
    Py.list_getitem seqwords (quad_base a) = Some seqword ∧
    emitted cpuid a = iteration_events (UasmGlobals cpuid) labels a uop seqword.
Proof.
  intros Hst Ha. unfold emitted. rewrite Hst.
  destruct (loop_body_cases ucode seqwords labels a (UasmGlobals cpuid))
    as [[? _]|[(_ & -> & _)|(uop & sw & _ & Hu & Hs & ->)]]; [lia|by left|].
  right. by exists uop, sw.
Qed.

Lemma emitted_ok (cpuid : string) ucode seqwords labels (a uop seqword : Z) :
  stores cpuid = Some (ucode, seqwords, labels) → a < 0x7c00 →
  Py.list_getitem ucode a = Some uop →
  Py.list_getitem seqwords (quad_base a) = Some seqword →
  emitted cpuid a = iteration_events (UasmGlobals cpuid) labels a uop seqword.
Proof.
  intros Hst Ha Hu Hs. unfold emitted. rewrite Hst.
  by rewrite (loop_body_ok _ _ _ _ _ _ _ Ha Hu Hs).
Qed.
End main_run.

(** ** Standard output *)

Lemma stdout_app (l1 l2 : list event) : stdout (l1 ++ l2) = stdout l1 ++ stdout l2.
Proof. apply omap_app. Qed.

Lemma stdout_bind {A} (f : A → list event) (l : list A) :
  stdout (l ≫= f) = l ≫= λ x, stdout (f x).
Proof.
  induction l as [|x l IH]; [done|].
  by rewrite !bind_cons, stdout_app, IH.
Qed.

Lemma elem_of_stdout (line : string) (evs : list event) :
  line ∈ stdout evs ↔ EvPrint line ∈ evs.
Proof.
  unfold stdout. rewrite list_elem_of_omap. split.
  - intros (ev & Hev & Hline). destruct ev; simplify_eq. done.
  - intros Hev. by exists (EvPrint line).
Qed.

Lemma label_line_nonempty (name : string) : name +:+ ":" ≠ "".
Proof. by destruct name. Qed.

Lemma data_line_nonempty (a w : Z) (b m f : string) : data_line a w b m f ≠ "".
Proof. done. Qed.

Section output.
Context {U : Uasm}.

Lemma stdout_prelude (cpuid : string) : stdout (prelude_events cpuid) = [].
Proof. unfold prelude_events. by repeat case_match. Qed.

Lemma stdout_separator (a : Z) : stdout (separator_events a) = spec_separator a.
Proof.
  unfold separator_events, spec_separator. rewrite Z.gtb_ltb.
  destruct (Z.eqb_spec (a `mod` 4) 0), (Z.ltb_spec 0 a); simpl;
    case_decide; done || lia.
Qed.

Lemma stdout_label (labels : gmap Z string) (a : Z) :
  stdout (label_events labels a) = spec_label labels a.
Proof. unfold label_events, spec_label. by destruct (labels !! a). Qed.

Lemma stdout_iteration (g : uasm_globals) (labels : gmap Z string) (a uop sw : Z) :
  stdout (iteration_events g labels a uop sw)
  = spec_separator a ++ spec_label labels a ++ [rendered_line g a uop sw].
Proof.
  unfold iteration_events.
  by rewrite !stdout_app, stdout_separator, stdout_label.
Qed.

Lemma main_stdout (cpuid : string) (g : uasm_globals) :
  stdout (events (main cpuid g)) = visited cpuid ≫= λ b, stdout (emitted cpuid b).
Proof. by rewrite main_events, stdout_app, stdout_prelude, stdout_bind. Qed.

Lemma last_iteration_events (g : uasm_globals) (labels : gmap Z string) (a uop sw : Z) :
  last (iteration_events g labels a uop sw) = Some (EvPrint (rendered_line g a uop sw)).
Proof. unfold iteration_events. by rewrite !app_assoc, last_snoc. Qed.

(** The decode calls of an iteration carry the address, the word and the
    control word of that iteration. *)
Lemma iteration_uop_call (g : uasm_globals) labels (a uop sw uop' a' : Z) :
  EvUopDisassemble uop' a' ∈ iteration_events g labels a uop sw →
  a' = a ∧ uop' = uop.
Proof.
  unfold iteration_events, separator_events, label_events, decode_events.
  rewrite !elem_of_app. intros [H|[H|[H|H]]]; repeat case_match;
    repeat (apply elem_of_cons in H as [H|H]; [by simplify_eq|]);
    by apply elem_of_nil in H.
Qed.

Lemma iteration_seqword_call (g : uasm_globals) labels (a uop sw a' uop' sw' : Z)
    (before : bool) :
  EvProcessSeqword a' uop' sw' before ∈ iteration_events g labels a uop sw →
  a' = a ∧ uop' = uop ∧ sw' = sw.
Proof.
  unfold iteration_events, separator_events, label_events, decode_events.
  rewrite !elem_of_app. intros [H|[H|[H|H]]]; repeat case_match;
    repeat (apply elem_of_cons in H as [H|H]; [by simplify_eq|]);
    by apply elem_of_nil in H.
Qed.

Lemma separator_no_call (a : Z) (ev : event) :
  ev ∈ separator_events a → ev = EvPrint "".
Proof.
  unfold separator_events. case_match; [|by intros ?%elem_of_nil].
  by intros ->%list_elem_of_singleton.
Qed.

Lemma iteration_no_set_cpuid (g : uasm_globals) labels (a uop sw : Z) (v : string) :
  EvSetCpuid v ∉ iteration_events g labels a uop sw.
Proof.
  unfold iteration_events, separator_events, label_events, decode_events.
  rewrite !elem_of_app. intros [H|[H|[H|H]]]; repeat case_match;
    repeat (apply elem_of_cons in H as [H|H]; [by simplify_eq|]);
    by apply elem_of_nil in H.
Qed.

(** The decode calls in the log of [main]. *)
Lemma main_uop_call (cpuid : string) (g : uasm_globals) (uop a : Z) :
  EvUopDisassemble uop a ∈ events (main cpuid g) →
  a ∈ visited cpuid ∧
  ∃ ucode seqwords labels,
    stores cpuid = Some (ucode, seqwords, labels) ∧
    Py.list_getitem ucode a = Some uop.
Proof.
  intros [Hpre|(b & Hb & Hev)]%main_event_origin.
  { apply prelude_event_kind in Hpre as [?|[[??]|[??]]]; done. }
  pose proof (visited_range _ _ Hb) as [[_ Hlt] _]. pose proof Hb as Hvis.
  unfold visited in Hb. destruct (stores cpuid) as [[[u s] l]|] eqn:Hst;
    [|by apply elem_of_nil in Hb].
  destruct (emitted_cases cpuid u s l b Hst Hlt) as [He|(w & sw & Hu & Hs & He)];
    rewrite He in Hev.
  - by apply separator_no_call in Hev.
  - apply iteration_uop_call in Hev as [-> ->]. split; [done|]. by exists u, s, l.
Qed.

Lemma main_seqword_call (cpuid : string) (g : uasm_globals) (a uop sw : Z)
    (before : bool) :
  EvProcessSeqword a uop sw before ∈ events (main cpuid g) →
  a ∈ visited cpuid ∧
  ∃ ucode seqwords labels,
    stores cpuid = Some (ucode, seqwords, labels) ∧
    Py.list_getitem ucode a = Some uop ∧
    Py.list_getitem seqwords (quad_base a) = Some sw.
Proof.
  intros [Hpre|(b & Hb & Hev)]%main_event_origin.
  { apply prelude_event_kind in Hpre as [?|[[??]|[??]]]; done. }
  pose proof (visited_range _ _ Hb) as [[_ Hlt] _]. pose proof Hb as Hvis.
  unfold visited in Hb. destruct (stores cpuid) as [[[u s] l]|] eqn:Hst;
    [|by apply elem_of_nil in Hb].
  destruct (emitted_cases cpuid u s l b Hst Hlt) as [He|(w & cw & Hu & Hs & He)];
    rewrite He in Hev.
  - by apply separator_no_call in Hev.
  - apply iteration_seqword_call in Hev as (-> & -> & ->).
    split; [done|]. by exists u, s, l.
Qed.

(** An event of a visited iteration is in the log. *)
Lemma emitted_in_main (cpuid : string) (g : uasm_globals) (a : Z) (ev : event) :
  a ∈ visited cpuid → ev ∈ emitted cpuid a → ev ∈ events (main cpuid g).
Proof.
  intros Ha Hev. rewrite main_events, elem_of_app, list_elem_of_bind.
  right. by exists a.
Qed.

(** Complete stores: every iteration finds its entries, the run ends
    normally and visits the whole address sequence. *)
Lemma list_getitem_covers {A} (store : list A) (a : Z) :
  covers_range store → 0 ≤ a < 0x7c00 → is_Some (Py.list_getitem store a).
Proof.
  unfold covers_range, Py.list_getitem. intros Hlen Ha. cbv zeta.
  rewrite !(proj2 (Z.ltb_ge a 0)) by lia. apply lookup_lt_is_Some. lia.
Qed.

Lemma quad_base_range (a : Z) : 0 ≤ a < 0x7c00 → 0 ≤ quad_base a < 0x7c00.
Proof.
  unfold quad_base. intros Ha.
  pose proof (Z.mod_pos_bound a 4). pose proof (Z.div_mod a 4).
  assert (a `div` 4 < 0x1f00) by (apply Z.div_lt_upper_bound; lia).
  assert (0 ≤ a `div` 4) by (apply Z.div_pos; lia). lia.
Qed.

Lemma complete_run (cpuid : string) (g : uasm_globals) ucode seqwords labels :
  stores cpuid = Some (ucode, seqwords, labels) →
  covers_range ucode → covers_range seqwords →
  result (main cpuid g) = inr () ∧ visited cpuid = trace.
Proof.
  intros Hst Hu Hs. rewrite (main_loaded _ _ _ _ _ Hst). cbn [result].
  unfold visited. rewrite Hst.
  apply for_in_result_ok; [apply loop_body_globals|].
  intros a [Ha _]%elem_of_trace.
  destruct (list_getitem_covers ucode a Hu Ha) as [w Hw].
  destruct (list_getitem_covers seqwords _ Hs (quad_base_range a Ha)) as [cw Hcw].
  by rewrite (loop_body_ok _ _ _ _ _ _ _ (proj2 Ha) Hw Hcw).
Qed.

End output.

(** ** The example instance *)

Lemma demo_stores :
  stores (U:=demo_uasm) "demo" = Some (demo_ucode, demo_seqwords, demo_labels).
Proof. reflexivity. Qed.

Lemma demo_covers_ucode : covers_range demo_ucode.
Proof. unfold covers_range. by vm_compute. Qed.

Lemma demo_covers_seqwords : covers_range demo_seqwords.
Proof. unfold covers_range. by vm_compute. Qed.

Lemma demo_visited : visited (U:=demo_uasm) "demo" = trace.
Proof.
  apply (complete_run (U:=demo_uasm) "demo" demo_globals _ _ _ demo_stores
           demo_covers_ucode demo_covers_seqwords).
Qed.

Lemma wide_stores :
  stores (U:=wide_uasm) "demo" = Some (wide_ucode, demo_seqwords, demo_labels).
Proof. reflexivity. Qed.

Lemma wide_covers_ucode : covers_range wide_ucode.
Proof. unfold covers_range. by vm_compute. Qed.

Lemma wide_visited : visited (U:=wide_uasm) "demo" = trace.
Proof.
  apply (complete_run (U:=wide_uasm) "demo" demo_globals _ _ _ wide_stores
           wide_covers_ucode demo_covers_seqwords).
Qed.

Example demo_iteration_4 :
  emitted (U:=demo_uasm) "demo" 4
  = [EvPrint ""; EvUopDisassemble 5 4; EvProcessSeqword 4 5 4 true;
     EvProcessSeqword 4 5 4 false; EvPrint "L4:";
     EvPrint "U0004: 000000000005 OP "].
Proof. by vm_compute. Qed.

(** The first two quads of the output, as in the scenario of the
    specification: addresses 0, 1, 2, a blank line, the label of address 4,
    addresses 4, 5, 6; then a blank line opens the third quad. *)
Example demo_first_quads :
  ∃ rest,
    stdout (events (main (U:=demo_uasm) "demo" demo_globals))
    = ["U0000: 000000000001 OP "; "U0001: 000000000002 OP ";
       "U0002: 000000000003 OP SEQW GOTO"; ""; "L4:";
       "U0004: 000000000005 OP "; "U0005: 000000000006 OP ";
       "U0006: 000000000007 OP SEQW GOTO"; ""] ++ rest.
Proof.
  rewrite main_stdout, demo_visited, trace_eq.
  change 0x7c00 with (8 + 0x7bf8). rewrite seqZ_app, filter_app by done.
  change (filter _ (seqZ 0 8)) with [0; 1; 2; 4; 5; 6].
  rewrite (seqZ_cons (0 + 8)), filter_cons_True by done.
  rewrite bind_app, (bind_cons _ (0 + 8)).
  assert (([0; 1; 2; 4; 5; 6] ≫= λ b, stdout (emitted (U:=demo_uasm) "demo" b))
          = ["U0000: 000000000001 OP "; "U0001: 000000000002 OP ";
             "U0002: 000000000003 OP SEQW GOTO"; ""; "L4:";
             "U0004: 000000000005 OP "; "U0005: 000000000006 OP ";
             "U0006: 000000000007 OP SEQW GOTO"]) as -> by (by vm_compute).
  assert (stdout (emitted (U:=demo_uasm) "demo" (0 + 8))
          = [""; "U0008: 000000000009 OP "]) as -> by (by vm_compute).
  eexists. cbn [app]. reflexivity.
Qed.

Example demo_iteration_6 :
  stdout (emitted (U:=demo_uasm) "demo" 6) = ["U0006: 000000000007 OP SEQW GOTO"].
Proof. by vm_compute. Qed.

(** ** The lines of one iteration *)

Section lines.
Context {U : Uasm}.

Lemma rendered_line_eq (g : uasm_globals) (a w cw : Z) :
  rendered_line g a w cw
  = "U" +:+ Py.format_0x 4 a +:+ ": " +:+ Py.format_0x 12 w +:+ " " +:+
    spec_before_field (Py.strip (process_seqword g a w cw true)) +:+
    Py.strip (uop_disassemble g w a) +:+ " " +:+
    Py.strip (process_seqword g a w cw false).
Proof.
  unfold rendered_line, data_line, spec_before_field.
  destruct (String.eqb_spec (Py.strip (process_seqword g a w cw true)) "") as [->|Hne];
    by case_decide.
Qed.

Lemma separator_events_decide (a : Z) :
  separator_events a = if decide (a `mod` 4 = 0 ∧ 0 < a) then [EvPrint ""] else [].
Proof.
  unfold separator_events. rewrite Z.gtb_ltb.
  destruct (Z.eqb_spec (a `mod` 4) 0), (Z.ltb_spec 0 a); simpl;
    case_decide; done || lia.
Qed.

Lemma iteration_rest_no_blank (g : uasm_globals) (labels : gmap Z string) (a w cw : Z) :
  EvPrint "" ∉ decode_events a w cw ++ label_events labels a
              ++ [EvPrint (rendered_line g a w cw)].
Proof.
  unfold decode_events, label_events.
  rewrite !elem_of_app. intros [H|[H|H]]; repeat case_match;
    repeat (apply elem_of_cons in H as [H|H];
            [by (simplify_eq; try by eapply label_line_nonempty) |]);
    by apply elem_of_nil in H.
Qed.

(** An iteration emits its separator first, when it has one, and no blank
    line after it. *)
Lemma emitted_shape (cpuid : string) (a : Z) :
  a ∈ visited cpuid →
  ∃ rest, emitted cpuid a = separator_events a ++ rest ∧ EvPrint "" ∉ rest.
Proof.
  intros Ha. pose proof (visited_range _ _ Ha) as [[_ Hlt] _].
  unfold visited in Ha. destruct (stores cpuid) as [[[u s] l]|] eqn:Hst;
    [|by apply elem_of_nil in Ha].
  destruct (emitted_cases cpuid u s l a Hst Hlt) as [He|(w & cw & _ & _ & He)];
    rewrite He.
  - exists []. rewrite app_nil_r. split; [done|]. apply not_elem_of_nil.
  - eexists. split; [done|]. apply iteration_rest_no_blank.
Qed.

Lemma quad_base_visited (cpuid : string) (a : Z) :
  a ∈ visited cpuid → quad_base a ∈ visited cpuid.
Proof.
  intros Ha. pose proof (visited_range _ _ Ha) as [Hr _].
  pose proof (quad_base_range a Hr) as Hq.
  assert (quad_base a ≤ a) by (unfold quad_base; pose proof (Z.mod_pos_bound a 4); lia).
  destruct (decide (quad_base a = a)) as [->|Hne]; [done|].
  apply (prefix_sorted_closed _ trace _ a);
    [apply trace_sorted | apply visited_prefix | done | | lia].
  apply elem_of_trace. split; [done|].
  rewrite <- div4_mul4, Z_mod_mult. done.
Qed.

End lines.

(** * The claims *)

(** C1.  An address [a] of [0, 0x7c00) with [a mod 4 = 3] is not in the
    address sequence and is not visited; the output of a run is exactly the
    output of the iterations of the visited addresses, so no line is emitted
    for [a]; and no decode call is ever made for [a]. *)
Theorem C1_fourth_slot_never_visited {U : Uasm} (cpuid : string)
    (g : uasm_globals) (a : Z) :
  0 ≤ a < 0x7c00 → a `mod` 4 = 3 →
  (a ∉ trace) ∧ (a ∉ visited cpuid) ∧
  stdout (events (main cpuid g)) = (visited cpuid ≫= λ b, stdout (emitted cpuid b)) ∧
  (∀ uop, EvUopDisassemble uop a ∉ events (main cpuid g)) ∧
  (∀ uop seqword before,
     EvProcessSeqword a uop seqword before ∉ events (main cpuid g)).
Proof.
  intros _ Ha.
  assert (a ∉ visited cpuid) as Hvis.
  { intros [_ ?]%visited_range. done. }
  split_and!.
  - intros [_ ?]%elem_of_trace. done.
  - done.
  - apply main_stdout.
  - intros uop [? _]%main_uop_call. done.
  - intros uop sw b [? _]%main_seqword_call. done.
Qed.

Lemma C1_fourth_slot_never_visited_witness :
  (3 ∉ trace) ∧ (3 ∉ visited (U:=demo_uasm) "demo") ∧
  stdout (events (main (U:=demo_uasm) "demo" demo_globals))
  = (visited (U:=demo_uasm) "demo" ≫= λ b, stdout (emitted (U:=demo_uasm) "demo" b)) ∧
  (∀ uop, EvUopDisassemble uop 3 ∉ events (main (U:=demo_uasm) "demo" demo_globals)) ∧
  (∀ uop seqword before,
     EvProcessSeqword 3 uop seqword before
     ∉ events (main (U:=demo_uasm) "demo" demo_globals)).
Proof.
  apply (C1_fourth_slot_never_visited (U:=demo_uasm) "demo" demo_globals 3); [lia|reflexivity].
Defined.

(** C2.  Every call of the group-control decoder, in either phase, receives
    as control word the entry of [seqwords] at the quad base
    [a - (a mod 4)] of the address [a] it is made for; a completed iteration
    makes both calls; hence two calls for addresses of one quad receive the
    same control word. *)
Theorem C2_control_word_of_quad_base {U : Uasm} (cpuid : string)
    (g : uasm_globals) (ucode seqwords : list Z) (labels : gmap Z string) :
  stores cpuid = Some (ucode, seqwords, labels) →
  (∀ a uop cw before,
     EvProcessSeqword a uop cw before ∈ events (main cpuid g) →
     a ∈ visited cpuid ∧ Py.list_getitem ucode a = Some uop ∧
     Py.list_getitem seqwords (a - a `mod` 4) = Some cw) ∧
  (∀ a uop cw,
     a ∈ visited cpuid → Py.list_getitem ucode a = Some uop →
     Py.list_getitem seqwords (a - a `mod` 4) = Some cw →
     EvProcessSeqword a uop cw true ∈ events (main cpuid g) ∧
     EvProcessSeqword a uop cw false ∈ events (main cpuid g)) ∧
  (∀ a b uop uop' cw cw' before before',
     EvProcessSeqword a uop cw before ∈ events (main cpuid g) →
     EvProcessSeqword b uop' cw' before' ∈ events (main cpuid g) →
     quad_base a = quad_base b → cw = cw').
Proof.
  intros Hst.
  assert (∀ a uop cw before,
            EvProcessSeqword a uop cw before ∈ events (main cpuid g) →
            a ∈ visited cpuid ∧ Py.list_getitem ucode a = Some uop ∧
            Py.list_getitem seqwords (quad_base a) = Some cw) as Hcall.
  { intros a uop cw before (Ha & u & s & l & Hst' & Hu & Hs)%main_seqword_call.
    rewrite Hst in Hst'. by simplify_eq. }
  split_and!.
  - exact Hcall.
  - intros a uop cw Ha Hu Hs. fold (quad_base a) in Hs.
    pose proof (visited_range _ _ Ha) as [[_ Hlt] _].
    split; apply (emitted_in_main _ _ a); try done;
      rewrite (emitted_ok _ _ _ _ _ _ _ Hst Hlt Hu Hs);
      unfold iteration_events, decode_events;
      apply elem_of_app; right; apply elem_of_app; left;
      repeat first [ by left | right ].
  - intros a b uop uop' cw cw' p p' (_ & _ & Ha)%Hcall (_ & _ & Hb)%Hcall Hq.
    rewrite Hq in Ha. congruence.
Qed.

Lemma C2_control_word_of_quad_base_witness :
  stores (U:=demo_uasm) "demo" = Some (demo_ucode, demo_seqwords, demo_labels) ∧
  ∀ a b uop uop' cw cw' before before',
    EvProcessSeqword a uop cw before
    ∈ events (main (U:=demo_uasm) "demo" demo_globals) →
    EvProcessSeqword b uop' cw' before'
    ∈ events (main (U:=demo_uasm) "demo" demo_globals) →
    quad_base a = quad_base b → cw = cw'.
Proof.
  split; [reflexivity|].
  apply (C2_control_word_of_quad_base (U:=demo_uasm) "demo" demo_globals
           demo_ucode demo_seqwords demo_labels).
  reflexivity.
Defined.

(** C3.  For a visited address [a] with word [w] and control word [cw], the
    last thing the iteration prints is the data line: the letter U, [a] as
    four lowercase hexadecimal digits, a colon and a space, [w] formatted
    with at least twelve digits, a space, the before field (the trimmed
    annotation followed by a space when it is not empty), the trimmed
    mnemonic, a space, and the trimmed after annotation.  For a 48-bit [w]
    the word field is exactly twelve digits and the line is the one the
    specification prescribes. *)
Theorem C3_data_line_format {U : Uasm} (cpuid : string) (g : uasm_globals)
    (ucode seqwords : list Z) (labels : gmap Z string) (a w cw : Z) :
  stores cpuid = Some (ucode, seqwords, labels) →
  a ∈ visited cpuid →
  Py.list_getitem ucode a = Some w →
  Py.list_getitem seqwords (quad_base a) = Some cw →
  let g1 := UasmGlobals cpuid in
  let before := Py.strip (process_seqword g1 a w cw true) in
  let mnemonic := Py.strip (uop_disassemble g1 w a) in
  let after := Py.strip (process_seqword g1 a w cw false) in
  let line := "U" +:+ hex_fixed 4 a +:+ ": " +:+ Py.format_0x 12 w +:+ " " +:+
              spec_before_field before +:+ mnemonic +:+ " " +:+ after in
  last (emitted cpuid a) = Some (EvPrint line) ∧
  line ∈ stdout (events (main cpuid g)) ∧
  String.length (hex_fixed 4 a) = 4%nat ∧ hex_value (hex_fixed 4 a) = Some a ∧
  (0 ≤ w < 2 ^ 48 →
   line = spec_data_line a w before mnemonic after ∧
   String.length (hex_fixed 12 w) = 12%nat ∧ hex_value (hex_fixed 12 w) = Some w).
Proof.
  intros Hst Ha Hw Hcw g1 before mnemonic after line.
  pose proof (visited_range _ _ Ha) as [Hr _].
  assert (line = rendered_line g1 a w cw) as Hline.
  { rewrite rendered_line_eq. subst line.
    by rewrite (format_0x_fixed 3 a) by (change (16 ^ Z.of_nat 4) with 65536; lia). }
  assert (last (emitted cpuid a) = Some (EvPrint line)) as Hlast.
  { rewrite (emitted_ok _ _ _ _ _ _ _ Hst (proj2 Hr) Hw Hcw), Hline.
    apply last_iteration_events. }
  split_and!.
  - done.
  - apply elem_of_stdout, (emitted_in_main _ _ a); [done|].
    by apply last_Some_elem_of.
  - apply length_hex_fixed.
  - apply hex_value_hex_fixed. change (16 ^ Z.of_nat 4) with 65536. lia.
  - intros Hw48. split_and!.
    + subst line. unfold spec_data_line. by rewrite (format_0x_fixed 11 w).
    + apply length_hex_fixed.
    + by apply hex_value_hex_fixed.
Qed.

Lemma C3_data_line_format_witness :
  last (emitted (U:=demo_uasm) "demo" 6)
  = Some (EvPrint "U0006: 000000000007 OP SEQW GOTO") ∧
  "U0006: 000000000007 OP SEQW GOTO" = spec_data_line 6 7 "" "OP" "SEQW GOTO".
Proof.
  assert (6 ∈ visited (U:=demo_uasm) "demo") as Hvisited.
  { rewrite demo_visited. apply elem_of_trace. split; [lia | by vm_compute]. }
  pose proof (C3_data_line_format (U:=demo_uasm) "demo" demo_globals
                demo_ucode demo_seqwords demo_labels 6 7 4
                eq_refl Hvisited eq_refl eq_refl) as H.
  cbv zeta in H. destruct H as (Hlast & _ & _ & _ & Hspec).
  split; [exact Hlast|]. apply Hspec. lia.
Defined.

(** C4.  The iteration of a visited address [a] begins with a blank line
    when [a mod 4 = 0] and [a > 0], and prints no other blank line; it
    prints no blank line at all otherwise.  So a blank line is printed for
    [a] if and only if [a mod 4 = 0] and [a > 0]: exactly one, before
    anything else of the first visited address (the base) of each quad but
    the first. *)
Theorem C4_blank_separator {U : Uasm} (cpuid : string) (g : uasm_globals) (a : Z) :
  a ∈ visited cpuid →
  (∃ rest,
     emitted cpuid a
     = (if decide (a `mod` 4 = 0 ∧ 0 < a) then [EvPrint ""] else []) ++ rest ∧
     EvPrint "" ∉ rest) ∧
  ("" ∈ stdout (emitted cpuid a) ↔ a `mod` 4 = 0 ∧ 0 < a) ∧
  quad_base a ∈ visited cpuid ∧
  stdout (events (main cpuid g)) = (visited cpuid ≫= λ b, stdout (emitted cpuid b)).
Proof.
  intros Ha. destruct (emitted_shape cpuid a Ha) as (rest & He & Hrest).
  rewrite separator_events_decide in He.
  split_and!.
  - by exists rest.
  - rewrite elem_of_stdout, He, elem_of_app. case_decide as Hq.
    + split; [done|]. intros _. left. by left.
    + split; [|done]. by intros [?%elem_of_nil|?].
  - by apply quad_base_visited.
  - apply main_stdout.
Qed.

Lemma C4_blank_separator_witness :
  "" ∈ stdout (emitted (U:=demo_uasm) "demo" 4) ↔ 4 `mod` 4 = 0 ∧ 0 < 4.
Proof.
  refine (proj1 (proj2 (C4_blank_separator (U:=demo_uasm) "demo" demo_globals 4 _))).
  rewrite demo_visited. apply elem_of_trace. split; [lia | by vm_compute].
Defined.

(** C5.  For a visited address, the before annotation is the result of the
    before-phase decode call with the surrounding white space removed.  When
    it is not empty, the data line holds it followed by exactly one space
    and then the mnemonic; when it is empty, the mnemonic follows the space
    that ends the word field, with no separator of its own. *)
Theorem C5_before_annotation {U : Uasm} (cpuid : string) (g : uasm_globals)
    (ucode seqwords : list Z) (labels : gmap Z string) (a w cw : Z) :
  stores cpuid = Some (ucode, seqwords, labels) →
  a ∈ visited cpuid →
  Py.list_getitem ucode a = Some w →
  Py.list_getitem seqwords (quad_base a) = Some cw →
  let g1 := UasmGlobals cpuid in
  let raw := process_seqword g1 a w cw true in
  let before := Py.strip raw in
  let mnemonic := Py.strip (uop_disassemble g1 w a) in
  let after := Py.strip (process_seqword g1 a w cw false) in
  let field := "U" +:+ Py.format_0x 4 a +:+ ": " +:+ Py.format_0x 12 w +:+ " " in
  (∃ l r, raw = l +:+ before +:+ r ∧ all_space l = true ∧ all_space r = true) ∧
  (∀ c, first_char before = Some c → Py.isspace c = false) ∧
  (∀ c, last_char before = Some c → Py.isspace c = false) ∧
  (before ≠ "" →
   last (emitted cpuid a)
   = Some (EvPrint (field +:+ before +:+ " " +:+ mnemonic +:+ " " +:+ after))) ∧
  (before = "" →
   last (emitted cpuid a)
   = Some (EvPrint (field +:+ mnemonic +:+ " " +:+ after))).
Proof.
  intros Hst Ha Hw Hcw g1 raw before mnemonic after field.
  pose proof (visited_range _ _ Ha) as [Hr _].
  assert (last (emitted cpuid a) = Some (EvPrint (rendered_line g1 a w cw))) as Hlast.
  { rewrite (emitted_ok _ _ _ _ _ _ _ Hst (proj2 Hr) Hw Hcw).
    apply last_iteration_events. }
  rewrite rendered_line_eq in Hlast. fold raw before mnemonic after in Hlast.
  split_and!.
  - apply strip_split.
  - apply strip_first.
  - apply strip_last.
  - intros Hne. rewrite Hlast. unfold spec_before_field, field.
    rewrite decide_False by done. by rewrite !app_assoc_str.
  - intros Heq. rewrite Hlast. unfold spec_before_field, field.
    rewrite decide_True by done. by rewrite !app_assoc_str.
Qed.

Lemma C5_before_annotation_witness :
  last (emitted (U:=demo_uasm) "demo" 5) = Some (EvPrint "U0005: 000000000006 OP ").
Proof.
  refine (proj2 (proj2 (proj2 (proj2
            (C5_before_annotation (U:=demo_uasm) "demo" demo_globals
               demo_ucode demo_seqwords demo_labels 5 6 4 _ _ _ _)))) _).
  - reflexivity.
  - rewrite demo_visited. apply elem_of_trace. split; [lia | by vm_compute].
  - reflexivity.
  - reflexivity.
  - reflexivity.
Defined.

(** C6.  The iteration of a visited address [a] prints, after the separator
    if any, the label line (the name and a colon) when [a] has a label, and
    then the data line: a label line stands immediately before the data line
    of [a] if and only if [a] has a label.  The output of a run consists of
    the output of the visited addresses only, and an address with
    [a mod 4 = 3] is never visited, so a label of an address that is not
    visited is never printed. *)
Theorem C6_label_line {U : Uasm} (cpuid : string) (g : uasm_globals)
    (ucode seqwords : list Z) (labels : gmap Z string) (a w cw : Z) :
  stores cpuid = Some (ucode, seqwords, labels) →
  a ∈ visited cpuid →
  Py.list_getitem ucode a = Some w →
  Py.list_getitem seqwords (quad_base a) = Some cw →
  let line := rendered_line (UasmGlobals cpuid) a w cw in
  stdout (emitted cpuid a) = spec_separator a ++ spec_label labels a ++ [line] ∧
  ((∃ name pre, stdout (emitted cpuid a) = pre ++ [name +:+ ":"; line])
   ↔ is_Some (labels !! a)) ∧
  (∀ name, labels !! a = Some name →
     ∃ pre post,
       stdout (events (main cpuid g)) = pre ++ [name +:+ ":"; line] ++ post) ∧
  stdout (events (main cpuid g)) = (visited cpuid ≫= λ b, stdout (emitted cpuid b)) ∧
  (∀ b, b `mod` 4 = 3 → b ∉ visited cpuid).
Proof.
  intros Hst Ha Hw Hcw line.
  pose proof (visited_range _ _ Ha) as [Hr _].
  assert (stdout (emitted cpuid a)
          = spec_separator a ++ spec_label labels a ++ [line]) as Hout.
  { rewrite (emitted_ok _ _ _ _ _ _ _ Hst (proj2 Hr) Hw Hcw).
    apply stdout_iteration. }
  split_and!.
  - done.
  - rewrite Hout. unfold spec_label. split.
    + intros (name & pre & Heq). destruct (labels !! a) as [n|]; [done|].
      exfalso. rewrite app_nil_l in Heq.
      change (pre ++ [name +:+ ":"; line]) with (pre ++ [name +:+ ":"] ++ [line]) in Heq.
      rewrite app_assoc in Heq. apply app_inj_tail in Heq as [Hsep _].
      unfold spec_separator in Hsep. case_decide.
      * destruct pre as [|? [|??]]; simplify_eq/=.
        by eapply label_line_nonempty.
      * by destruct pre.
    + intros [name ->]. by exists name, (spec_separator a).
  - intros name Hl. rewrite main_stdout.
    apply list_elem_of_split in Ha as (v1 & v2 & ->).
    rewrite bind_app, bind_cons, Hout. unfold spec_label. rewrite Hl.
    exists ((v1 ≫= λ b, stdout (emitted cpuid b)) ++ spec_separator a),
           (v2 ≫= λ b, stdout (emitted cpuid b)).
    by rewrite <- !app_assoc.
  - apply main_stdout.
  - intros b Hb [_ ?]%visited_range. done.
Qed.

Lemma C6_label_line_witness :
  stdout (emitted (U:=demo_uasm) "demo" 4) = [""; "L4:"; "U0004: 000000000005 OP "].
Proof.
  refine (proj1 (C6_label_line (U:=demo_uasm) "demo" demo_globals
                   demo_ucode demo_seqwords demo_labels 4 5 4 _ _ _ _)).
  - reflexivity.
  - rewrite demo_visited. apply elem_of_trace. split; [lia | by vm_compute].
  - reflexivity.
  - reflexivity.
Defined.

(** C7.  The assertion [uaddr < 0x7c00] holds at every address of the
    sequence, so at every visited address, and no run of [main] ends with
    [AssertionError]. *)
Theorem C7_assertion_never_fails {U : Uasm} (cpuid : string) (g : uasm_globals) :
  (∀ a, a ∈ trace → (a <? 0x7c00) = true) ∧
  (∀ a, a ∈ visited cpuid → py_assert (a <? 0x7c00) = ret ()) ∧
  result (main cpuid g) ≠ inl AssertionError.
Proof.
  split_and!.
  - intros a [? _]%elem_of_trace. apply Z.ltb_lt. lia.
  - intros a [? _]%visited_range. by rewrite (proj2 (Z.ltb_lt a 0x7c00)) by lia.
  - intros Hres. pose proof Hres as [Hst|(u & s & l & a & Hst & Ha & He)]%main_result.
    + destruct (main_not_loaded cpuid g Hst) as [name Hm]. by rewrite Hm in Hres.
    + pose proof (visited_range _ _ Ha) as [[_ Hlt] _].
      destruct (loop_body_cases u s l a (UasmGlobals cpuid))
        as [[? _]|[(_ & Ho & _)|(? & ? & _ & _ & _ & Ho)]];
        [lia|rewrite Ho in He..]; done.
Qed.

(** C8.  The iteration terminates ([main] is a total function; with
    complete stores it returns normally after visiting the whole sequence).
    The sequence is strictly ascending, starts at 0 and ends at [0x7bfe];
    [0x7bff] and [0x7c00] are not in it; the visited addresses are a prefix
    of it; no decode call is made and nothing is emitted for [0x7c00]. *)
Theorem C8_iteration_bounds {U : Uasm} (cpuid : string) (g : uasm_globals) :
  StronglySorted Z.lt trace ∧ head trace = Some 0 ∧ last trace = Some 0x7bfe ∧
  (0x7bff ∉ trace) ∧ (0x7c00 ∉ trace) ∧
  visited cpuid `prefix_of` trace ∧ (0x7c00 ∉ visited cpuid) ∧
  events (main cpuid g) = prelude_events cpuid ++ (visited cpuid ≫= emitted cpuid) ∧
  (∀ uop, EvUopDisassemble uop 0x7c00 ∉ events (main cpuid g)) ∧
  (∀ uop seqword before,
     EvProcessSeqword 0x7c00 uop seqword before ∉ events (main cpuid g)) ∧
  (∀ ucode seqwords labels,
     stores cpuid = Some (ucode, seqwords, labels) →
     covers_range ucode → covers_range seqwords →
     result (main cpuid g) = inr () ∧ visited cpuid = trace ∧
     last (visited cpuid) = Some 0x7bfe).
Proof.
  assert (0x7c00 ∉ visited cpuid) as Hvis.
  { intros [? _]%visited_range. lia. }
  split_and!.
  - apply trace_sorted.
  - apply trace_head.
  - apply trace_last.
  - intros [_ ?]%elem_of_trace. done.
  - intros [? _]%elem_of_trace. lia.
  - apply visited_prefix.
  - done.
  - apply main_events.
  - intros uop [? _]%main_uop_call. done.
  - intros uop sw b [? _]%main_seqword_call. done.
  - intros u s l Hst Hu Hs.
    destruct (complete_run cpuid g u s l Hst Hu Hs) as [Hres Hv].
    split_and!; [done..|]. rewrite Hv. apply trace_last.
Qed.

Lemma C8_iteration_bounds_witness :
  result (main (U:=demo_uasm) "demo" demo_globals) = inr () ∧
  visited (U:=demo_uasm) "demo" = trace ∧
  last (visited (U:=demo_uasm) "demo") = Some 0x7bfe.
Proof.
  pose proof (C8_iteration_bounds (U:=demo_uasm) "demo" demo_globals) as H.
  repeat (destruct H as [_ H]).
  apply (H demo_ucode demo_seqwords demo_labels).
  - reflexivity.
  - unfold covers_range. by vm_compute.
  - unfold covers_range. by vm_compute.
Defined.

(** C9.  The word field of the data line has a minimum width of twelve
    digits.  The iteration of a visited address with a non-negative word [w]
    ends normally whatever the size of [w], and its data line carries
    [format(w, '012x')]: for [w < 2^48] exactly twelve lowercase hexadecimal
    digits, zero-padded; for [w >= 2^48] all the digits of [w], more than
    twelve, which read back as [w]. *)
Theorem C9_word_field_minimum_width {U : Uasm} (cpuid : string)
    (ucode seqwords : list Z) (labels : gmap Z string) (a w cw : Z) :
  stores cpuid = Some (ucode, seqwords, labels) →
  a ∈ visited cpuid →
  Py.list_getitem ucode a = Some w →
  Py.list_getitem seqwords (quad_base a) = Some cw →
  0 ≤ w →
  result (loop_body ucode seqwords labels a (UasmGlobals cpuid)) = inr () ∧
  (∃ rest,
     last (emitted cpuid a)
     = Some (EvPrint ("U" +:+ Py.format_0x 4 a +:+ ": " +:+
                      Py.format_0x 12 w +:+ " " +:+ rest))) ∧
  (w < 2 ^ 48 →
   Py.format_0x 12 w = hex_fixed 12 w ∧
   String.length (Py.format_0x 12 w) = 12%nat ∧
   hex_value (Py.format_0x 12 w) = Some w) ∧
  (2 ^ 48 ≤ w →
   Py.format_0x 12 w = Py.hex_digits w "" ∧
   (12 < String.length (Py.format_0x 12 w))%nat ∧
   hex_value (Py.format_0x 12 w) = Some w).
Proof.
  intros Hst Ha Hw Hcw Hw0.
  pose proof (visited_range _ _ Ha) as [Hr _].
  split_and!.
  - by rewrite (loop_body_ok _ _ _ _ _ _ _ (proj2 Hr) Hw Hcw).
  - rewrite (emitted_ok _ _ _ _ _ _ _ Hst (proj2 Hr) Hw Hcw),
      last_iteration_events, rendered_line_eq.
    by eexists.
  - intros Hlt. rewrite (format_0x_fixed 11 w) by done.
    split_and!; [done | apply length_hex_fixed | by apply hex_value_hex_fixed].
  - intros Hge. rewrite (format_0x_wide 12 w) by done.
    split_and!; [done | by apply length_hex_digits_gt | by apply hex_value_hex_digits].
Qed.

Lemma C9_word_field_minimum_width_witness :
  (∃ rest, last (emitted (U:=wide_uasm) "demo" 1)
           = Some (EvPrint ("U0001: 1000000000001 " +:+ rest))) ∧
  Py.format_0x 12 (2 ^ 48 + 1) = Py.hex_digits (2 ^ 48 + 1) "" ∧
  (12 < String.length (Py.format_0x 12 (2 ^ 48 + 1)))%nat ∧
  hex_value (Py.format_0x 12 (2 ^ 48 + 1)) = Some (2 ^ 48 + 1).
Proof.
  assert (1 ∈ visited (U:=wide_uasm) "demo") as Hvisited.
  { rewrite wide_visited. apply elem_of_trace. split; [lia | by vm_compute]. }
  assert (0 ≤ 2 ^ 48 + 1) as Hpos by lia.
  pose proof (C9_word_field_minimum_width (U:=wide_uasm) "demo"
                wide_ucode demo_seqwords demo_labels 1 (2 ^ 48 + 1) 0
                eq_refl Hvisited eq_refl eq_refl Hpos) as (_ & Hlast & _ & Hwide).
  split; [exact Hlast|]. apply Hwide. lia.
Defined.

(** C10.  The first event of every run of [main] is the assignment of the
    command-line value [cpuid] to [uasm.cpuid_], before any loader or
    decoder is called; no other assignment to it occurs in the run; the
    iterations of the loop leave the global as it is, and it still holds
    [cpuid] when [main] ends. *)
Theorem C10_cpuid_assigned_once {U : Uasm} (cpuid : string) (g : uasm_globals) :
  ∃ rest,
    events (main cpuid g) = EvSetCpuid cpuid :: rest ∧
    (∀ value, EvSetCpuid value ∉ rest) ∧
    (∀ ucode seqwords labels uaddr,
       globals (loop_body ucode seqwords labels uaddr (UasmGlobals cpuid))
       = UasmGlobals cpuid) ∧
    globals (main cpuid g) = UasmGlobals cpuid.
Proof.
  exists (tail (prelude_events cpuid) ++ (visited cpuid ≫= emitted cpuid)).
  split_and!.
  - by rewrite main_events.
  - intros v [Hpre|(b & Hev & Hb)%list_elem_of_bind]%elem_of_app.
    + unfold prelude_events in Hpre. cbn [tail] in Hpre.
      repeat case_match;
        repeat (apply elem_of_cons in Hpre as [Hpre|Hpre]; [done|]);
        by apply elem_of_nil in Hpre.
    + pose proof (visited_range _ _ Hb) as [[_ Hlt] _].
      unfold visited in Hb. destruct (stores cpuid) as [[[u s] l]|] eqn:Hst;
        [|by apply elem_of_nil in Hb].
      destruct (emitted_cases cpuid u s l b Hst Hlt) as [He|(w & cw & _ & _ & He)];
        rewrite He in Hev.
      * by apply separator_no_call in Hev.
      * by apply iteration_no_set_cpuid in Hev.
  - intros. apply loop_body_globals.
  - apply main_globals.
Qed.

(** * Further properties of the program *)

(** ** Indexing *)

Lemma list_getitem_nonneg {A} (l : list A) (a : Z) :
  0 ≤ a → Py.list_getitem l a = l !! Z.to_nat a.
Proof.
  intros Ha. unfold Py.list_getitem. cbv zeta.
  by rewrite !(proj2 (Z.ltb_ge a 0)) by lia.
Qed.

Lemma list_getitem_is_Some {A} (l : list A) (a : Z) :
  0 ≤ a → is_Some (Py.list_getitem l a) ↔ a < Z.of_nat (length l).
Proof.
  intros Ha. rewrite list_getitem_nonneg, lookup_lt_is_Some by done. lia.
Qed.

Lemma list_getitem_None {A} (l : list A) (a : Z) :
  0 ≤ a → Py.list_getitem l a = None ↔ Z.of_nat (length l) ≤ a.
Proof.
  intros Ha. rewrite list_getitem_nonneg, lookup_ge_None by done. lia.
Qed.

Lemma quad_base_le (a : Z) : 0 ≤ a < 0x7c00 → quad_base a ≤ 0x7bfc.
Proof.
  intros Ha. rewrite <- div4_mul4.
  assert (a `div` 4 < 0x1f00) by (apply Z.div_lt_upper_bound; lia). lia.
Qed.

(** ** Runs of the loop that stop early *)

Section for_in_more.
Context {A : Type} (body : A → M unit).
Hypothesis body_globals : ∀ x g, globals (body x g) = g.

Lemma for_in_result_ok_inv (l : list A) (g : uasm_globals) (x : A) :
  result (for_in l body g) = inr () → x ∈ l → result (body x g) = inr ().
Proof.
  induction l as [|y l IH]; intros Hres Hx; [by apply elem_of_nil in Hx|].
  rewrite for_in_cons in Hres by done.
  destruct (result (body y g)) as [e|[]] eqn:Hy; [done|].
  apply elem_of_cons in Hx as [->|Hx]; [done|]. by apply IH.
Qed.

Lemma for_in_abort (pre post : list A) (a : A) (g : uasm_globals) (e : exn) :
  (∀ x, x ∈ pre → result (body x g) = inr ()) →
  result (body a g) = inl e →
  result (for_in (pre ++ a :: post) body g) = inl e ∧
  iterated (pre ++ a :: post) body g = pre ++ [a].
Proof.
  intros Hpre Ha. induction pre as [|x pre IH].
  - rewrite app_nil_l, for_in_cons by done. cbn [iterated]. by rewrite Ha.
  - rewrite <- app_comm_cons, for_in_cons by done. cbn [iterated].
    rewrite body_globals, (Hpre x) by left. cbn [result].
    destruct IH as [-> ->]; [|done]. intros y Hy. apply Hpre. by right.
Qed.
End for_in_more.

(** ** How a run ends *)

(** X1.  When a loader raises, [main] ends with that exception: the loaders
    after it are not called, the loop is not entered, no decoder is called
    and nothing is printed. *)
Theorem X1_load_failure {U : Uasm} (cpuid : string) (g : uasm_globals) :
  stores cpuid = None →
  let g1 := UasmGlobals cpuid in
  let load0 := EvLoadMsArray (ucode_path cpuid) in
  let load1 := EvLoadMsArray (seqwords_path cpuid) in
  let load2 := EvLoadLabels labels_path in
  ∃ name,
    result (main cpuid g) = inl (ExternalError name) ∧
    stdout (events (main cpuid g)) = [] ∧
    decode_calls (events (main cpuid g)) = [] ∧
    ((load_ms_array_str_data g1 (ucode_path cpuid) = inl name ∧
      events (main cpuid g) = [EvSetCpuid cpuid; load0]) ∨
     ((∃ ucode, load_ms_array_str_data g1 (ucode_path cpuid) = inr ucode) ∧
      load_ms_array_str_data g1 (seqwords_path cpuid) = inl name ∧
      events (main cpuid g) = [EvSetCpuid cpuid; load0; load1]) ∨
     ((∃ ucode, load_ms_array_str_data g1 (ucode_path cpuid) = inr ucode) ∧
      (∃ seqwords, load_ms_array_str_data g1 (seqwords_path cpuid) = inr seqwords) ∧
      load_labels g1 labels_path = inl name ∧
      events (main cpuid g) = [EvSetCpuid cpuid; load0; load1; load2])).
Proof.
  intros Hst g1 load0 load1 load2. subst g1 load0 load1 load2.
  unfold stores in Hst.
  unfold main, mbind, M_bind, bind, set_cpuid_,
    call_load_ms_array_str_data, call_load_labels, external.
  fold (ucode_path cpuid) (seqwords_path cpuid) labels_path.
  destruct (load_ms_array_str_data _ (ucode_path cpuid)) as [n0|u] eqn:E0.
  { exists n0. split_and!; [done..|]. by left. }
  destruct (load_ms_array_str_data _ (seqwords_path cpuid)) as [n1|s] eqn:E1.
  { exists n1. split_and!; [done..|]. right; left. split_and!; [by eexists|done..]. }
  destruct (load_labels _ labels_path) as [n2|l] eqn:E2; [|done].
  exists n2. split_and!; [done..|]. right; right.
  split_and!; [by eexists..|done|done].
Qed.

Lemma X1_load_failure_witness :
  ∃ name,
    result (main (U:=demo_uasm) "absent" demo_globals) = inl (ExternalError name) ∧
    stdout (events (main (U:=demo_uasm) "absent" demo_globals)) = [].
Proof.
  destruct (X1_load_failure (U:=demo_uasm) "absent" demo_globals eq_refl)
    as (name & Hres & Hout & _).
  exists name. by split.
Defined.

(** X2.  A run of [main] ends normally, with an exception of a loader, or
    with [IndexError]; in particular never with [KeyError]: the label is
    only read when the address is a key of the table. *)
Theorem X2_possible_results {U : Uasm} (cpuid : string) (g : uasm_globals) :
  (result (main cpuid g) = inr () ∨
   result (main cpuid g) = inl IndexError ∨
   ∃ name, result (main cpuid g) = inl (ExternalError name)) ∧
  result (main cpuid g) ≠ inl KeyError.
Proof.
  assert (result (main cpuid g) = inr () ∨
          result (main cpuid g) = inl IndexError ∨
          ∃ name, result (main cpuid g) = inl (ExternalError name)) as H.
  { destruct (result (main cpuid g)) as [e|[]] eqn:Hres; [|by left].
    right. pose proof Hres as [Hst|(u & s & l & a & Hst & Ha & He)]%main_result.
    - destruct (main_not_loaded cpuid g Hst) as [name Hm].
      rewrite Hm in Hres. right. exists name. by rewrite <- Hres.
    - pose proof (visited_range _ _ Ha) as [[_ Hlt] _].
      destruct (loop_body_cases u s l a (UasmGlobals cpuid))
        as [[? _]|[(_ & Ho & _)|(? & ? & _ & _ & _ & Ho)]];
        [lia|rewrite Ho in He..]; simplify_eq/=. by left. }
  split; [done|]. intros Hk. rewrite Hk in H.
  destruct H as [?|[?|[??]]]; done.
Qed.

(** X3.  Once the three stores are loaded, [main] returns normally exactly
    when [ucode] has an entry at the last visited address [0x7bfe] and
    [seqwords] one at the last quad base [0x7bfc], that is when they hold at
    least [0x7bff] and [0x7bfd] entries; otherwise it ends with
    [IndexError]. *)
Theorem X3_normal_end_iff {U : Uasm} (cpuid : string) (g : uasm_globals)
    (ucode seqwords : list Z) (labels : gmap Z string) :
  stores cpuid = Some (ucode, seqwords, labels) →
  (result (main cpuid g) = inr () ↔
   0x7bff ≤ Z.of_nat (length ucode) ∧ 0x7bfd ≤ Z.of_nat (length seqwords)) ∧
  (result (main cpuid g) ≠ inr () → result (main cpuid g) = inl IndexError).
Proof.
  intros Hst. split.
  - rewrite (main_loaded _ _ _ _ _ Hst). cbn [result]. split.
    + intros Hres.
      assert (0x7bfe ∈ trace) as Hin by (apply elem_of_trace; split; [lia|done]).
      pose proof (for_in_result_ok_inv _ (loop_body_globals ucode seqwords labels)
                    _ _ _ Hres Hin) as Hbody.
      destruct (loop_body_cases ucode seqwords labels 0x7bfe (UasmGlobals cpuid))
        as [[? _]|[(_ & Ho & _)|(w & cw & _ & Hw & Hcw & _)]];
        [lia | by rewrite Ho in Hbody |].
      assert (is_Some (Py.list_getitem ucode 0x7bfe)) as Hu by eauto.
      assert (is_Some (Py.list_getitem seqwords (quad_base 0x7bfe))) as Hs by eauto.
      apply list_getitem_is_Some in Hu; [|lia].
      apply list_getitem_is_Some in Hs; [|done].
      change (quad_base 0x7bfe) with 0x7bfc in Hs. lia.
    + intros [Hu Hs].
      apply (for_in_result_ok _ (loop_body_globals ucode seqwords labels)).
      intros a [Ha Hmod]%elem_of_trace.
      assert (a ≠ 0x7bff) by (intros ->; done).
      pose proof (quad_base_range a Ha). pose proof (quad_base_le a Ha).
      destruct (proj2 (list_getitem_is_Some ucode a (proj1 Ha))) as [w Hw]; [lia|].
      destruct (proj2 (list_getitem_is_Some seqwords (quad_base a) ltac:(lia)))
        as [cw Hcw]; [lia|].
      by rewrite (loop_body_ok _ _ _ _ _ _ _ (proj2 Ha) Hw Hcw).
  - intros Hne.
    destruct (result (main cpuid g)) as [e|[]] eqn:Hres; [|done].
    pose proof Hres as [Hst'|(u & s & l & a & _ & Ha & He)]%main_result;
      [by rewrite Hst in Hst'|].
    pose proof (visited_range _ _ Ha) as [[_ Hlt] _].
    destruct (loop_body_cases u s l a (UasmGlobals cpuid))
      as [[? _]|[(_ & Ho & _)|(? & ? & _ & _ & _ & Ho)]];
      [lia|rewrite Ho in He..]; by simplify_eq/=.
Qed.

Lemma X3_normal_end_iff_witness :
  result (main (U:=demo_uasm) "demo" demo_globals) = inr ().
Proof.
  apply (X3_normal_end_iff (U:=demo_uasm) "demo" demo_globals
           demo_ucode demo_seqwords demo_labels eq_refl).
  split; by vm_compute.
Defined.

(** ** The decode calls of a log *)

Lemma decode_calls_app (l1 l2 : list event) :
  decode_calls (l1 ++ l2) = decode_calls l1 ++ decode_calls l2.
Proof. apply omap_app. Qed.

Lemma decode_calls_bind {A} (f : A → list event) (l : list A) :
  decode_calls (l ≫= f) = l ≫= λ x, decode_calls (f x).
Proof.
  induction l as [|x l IH]; [done|].
  by rewrite !bind_cons, decode_calls_app, IH.
Qed.

Section calls.
Context {U : Uasm}.

Lemma decode_calls_prelude (cpuid : string) : decode_calls (prelude_events cpuid) = [].
Proof. unfold prelude_events. by repeat case_match. Qed.

Lemma decode_calls_separator (a : Z) : decode_calls (separator_events a) = [].
Proof. unfold separator_events. by case_match. Qed.

Lemma decode_calls_iteration (g : uasm_globals) (labels : gmap Z string) (a w cw : Z) :
  decode_calls (iteration_events g labels a w cw) = calls_of a.
Proof.
  unfold iteration_events, label_events.
  rewrite !decode_calls_app, decode_calls_separator.
  by destruct (labels !! a).
Qed.

Lemma main_decode_calls (cpuid : string) (g : uasm_globals) :
  decode_calls (events (main cpuid g))
  = visited cpuid ≫= λ b, decode_calls (emitted cpuid b).
Proof.
  by rewrite main_events, decode_calls_app, decode_calls_prelude, decode_calls_bind.
Qed.

Lemma trace_cons : trace = 0 :: tail trace.
Proof. pose proof trace_head. by destruct trace; simplify_eq/=. Qed.

End calls.

Lemma aborted_run {U : Uasm} (cpuid : string) (g : uasm_globals)
    (ucode seqwords : list Z) (labels : gmap Z string)
    (pre post : list Z) (a : Z) :
  stores cpuid = Some (ucode, seqwords, labels) →
  trace = pre ++ a :: post →
  (∀ b, b ∈ pre → is_Some (Py.list_getitem ucode b) ∧
                  is_Some (Py.list_getitem seqwords (quad_base b))) →
  Py.list_getitem ucode a = None ∨ Py.list_getitem seqwords (quad_base a) = None →
  result (main cpuid g) = inl IndexError ∧
  visited cpuid = pre ++ [a] ∧
  emitted cpuid a = separator_events a ∧
  ∀ b, b ∈ pre →
    ∃ w cw, emitted cpuid b = iteration_events (UasmGlobals cpuid) labels b w cw.
Proof.
  intros Hst Htrace Hpre Ha.
  assert (∀ b, b ∈ trace → 0 ≤ b < 0x7c00) as Hrange.
  { by intros b [? _]%elem_of_trace. }
  assert (a ∈ trace) as Hain.
  { rewrite Htrace. apply elem_of_app. right. left. }
  assert (∀ b, b ∈ pre → ∃ w cw,
            emitted cpuid b = iteration_events (UasmGlobals cpuid) labels b w cw ∧
            loop_body ucode seqwords labels b (UasmGlobals cpuid)
            = Outcome (inr ()) (UasmGlobals cpuid)
                      (iteration_events (UasmGlobals cpuid) labels b w cw)) as Hok.
  { intros b Hb. destruct (Hpre b Hb) as [[w Hw] [cw Hcw]].
    assert (b < 0x7c00) as Hlt.
    { apply Hrange. rewrite Htrace. apply elem_of_app. by left. }
    exists w, cw. split; [by apply (emitted_ok cpuid ucode seqwords)|].
    by apply loop_body_ok. }
  assert (loop_body ucode seqwords labels a (UasmGlobals cpuid)
          = Outcome (inl IndexError) (UasmGlobals cpuid) (separator_events a)) as Hfail.
  { destruct (loop_body_cases ucode seqwords labels a (UasmGlobals cpuid))
      as [[? _]|[(_ & Ho & _)|(w & cw & _ & Hw & Hcw & _)]];
      [specialize (Hrange a Hain); lia | done | destruct Ha; congruence]. }
  destruct (for_in_abort _ (loop_body_globals ucode seqwords labels)
              pre post a (UasmGlobals cpuid) IndexError) as [Hres Hit].
  { intros b (w & cw & _ & ->)%Hok. done. }
  { by rewrite Hfail. }
  split_and!.
  - rewrite (main_loaded _ _ _ _ _ Hst). cbn [result].
    unfold trace_loop. by rewrite Htrace.
  - unfold visited. by rewrite Hst, Htrace.
  - unfold emitted. by rewrite Hst, Hfail.
  - intros b (w & cw & He & _)%Hok. by exists w, cw.
Qed.

(** X4.  When the entries exist for the addresses before [a] and [ucode]
    has none at [a], or [seqwords] none at the quad base of [a], the run
    ends with [IndexError] in the iteration of [a]: that iteration prints at
    most its blank separator and calls no decoder; everything before it is
    the complete output of the earlier addresses. *)
Theorem X4_index_error {U : Uasm} (cpuid : string) (g : uasm_globals)
    (ucode seqwords : list Z) (labels : gmap Z string)
    (pre post : list Z) (a : Z) :
  stores cpuid = Some (ucode, seqwords, labels) →
  trace = pre ++ a :: post →
  (∀ b, b ∈ pre → is_Some (Py.list_getitem ucode b) ∧
                  is_Some (Py.list_getitem seqwords (quad_base b))) →
  Py.list_getitem ucode a = None ∨ Py.list_getitem seqwords (quad_base a) = None →
  result (main cpuid g) = inl IndexError ∧
  visited cpuid = pre ++ [a] ∧
  emitted cpuid a = (if decide (a `mod` 4 = 0 ∧ 0 < a) then [EvPrint ""] else []) ∧
  stdout (events (main cpuid g))
  = (pre ≫= λ b, stdout (emitted cpuid b)) ++ spec_separator a ∧
  decode_calls (events (main cpuid g)) = pre ≫= calls_of.
Proof.
  intros Hst Htrace Hpre Ha.
  destruct (aborted_run cpuid g _ _ _ _ _ _ Hst Htrace Hpre Ha)
    as (Hres & Hvis & Hema & Hok).
  split_and!.
  - done.
  - done.
  - by rewrite Hema, separator_events_decide.
  - rewrite main_stdout, Hvis, bind_app, bind_singleton.
    by rewrite Hema, stdout_separator.
  - rewrite main_decode_calls, Hvis, bind_app, bind_singleton.
    rewrite Hema, decode_calls_separator, app_nil_r.
    apply Forall_bind_ext, Forall_forall. intros b (w & cw & ->)%Hok.
    apply decode_calls_iteration.
Qed.

Lemma X4_index_error_witness :
  result (main (U:=empty_uasm) "demo" demo_globals) = inl IndexError ∧
  visited (U:=empty_uasm) "demo" = [0] ∧
  stdout (events (main (U:=empty_uasm) "demo" demo_globals)) = [].
Proof.
  destruct (X4_index_error (U:=empty_uasm) "demo" demo_globals
              [] [] demo_labels [] (tail trace) 0 eq_refl trace_cons)
    as (Hres & Hvis & _ & Hout & _).
  - intros b Hb. by apply elem_of_nil in Hb.
  - by left.
  - by split_and!.
Defined.

(** ** The address sequence, quad by quad *)

Lemma mod4_add (m r : Z) : 0 ≤ r < 4 → (4 * m + r) `mod` 4 = r.
Proof.
  intros Hr. rewrite Z.add_comm, Z.mul_comm, Z_mod_plus_full. by apply Z.mod_small.
Qed.

Lemma seqZ_4 (m : Z) : seqZ m 4 = [m; m + 1; m + 2; m + 3].
Proof. unfold seqZ. simpl. repeat (f_equal; try lia). Qed.

Lemma filter_quad (m : Z) :
  filter (λ x, x `mod` 4 ≠ 3) (seqZ (4 * m) 4) = quad_slots m.
Proof.
  rewrite seqZ_4. unfold quad_slots.
  rewrite filter_cons_True by (rewrite <- (Z.add_0_r (4 * m)), mod4_add; lia).
  rewrite filter_cons_True by (rewrite mod4_add; lia).
  rewrite filter_cons_True by (rewrite mod4_add; lia).
  rewrite filter_cons_False by (rewrite mod4_add; lia).
  done.
Qed.

Lemma filter_quads (m : Z) (k : nat) :
  filter (λ x, x `mod` 4 ≠ 3) (seqZ (4 * m) (4 * Z.of_nat k))
  = seqZ m (Z.of_nat k) ≫= quad_slots.
Proof.
  revert m. induction k as [|k IH]; intros m; [by rewrite !seqZ_nil by lia|].
  replace (4 * Z.of_nat (S k)) with (4 + 4 * Z.of_nat k) by lia.
  rewrite seqZ_app, filter_app, filter_quad by lia.
  rewrite (seqZ_cons m) by lia. rewrite bind_cons.
  replace (Z.pred (Z.of_nat (S k))) with (Z.of_nat k) by lia.
  replace (4 * m + 4) with (4 * Z.succ m) by lia.
  by rewrite IH.
Qed.

Lemma length_bind_quad_slots (l : list Z) :
  length (l ≫= quad_slots) = (3 * length l)%nat.
Proof.
  induction l as [|q l IH]; [done|].
  rewrite bind_cons, length_app, IH. simpl. lia.
Qed.

Lemma trace_quads : trace = seqZ 0 0x1f00 ≫= quad_slots.
Proof.
  rewrite trace_eq. pose proof (filter_quads 0 (Z.to_nat 0x1f00)) as Hq.
  rewrite Z2Nat.id in Hq by lia. exact Hq.
Qed.

(** X5.  The address sequence runs through the quads 0 to [0x1eff] in order
    and gives, for each quad [q], its first three addresses [4q], [4q + 1]
    and [4q + 2]; it has 23808 addresses. *)
Theorem X5_trace_by_quads :
  trace = seqZ 0 0x1f00 ≫= quad_slots ∧ Z.of_nat (length trace) = 23808.
Proof.
  split; [apply trace_quads|].
  rewrite trace_quads, length_bind_quad_slots, length_seqZ. lia.
Qed.

(** ** Runs that end normally *)

Section normal_runs.
Context {U : Uasm}.

Lemma normal_run (cpuid : string) (g : uasm_globals)
    (ucode seqwords : list Z) (labels : gmap Z string) :
  stores cpuid = Some (ucode, seqwords, labels) →
  result (main cpuid g) = inr () →
  visited cpuid = trace ∧
  ∀ a, a ∈ trace →
    ∃ w cw,
      Py.list_getitem ucode a = Some w ∧
      Py.list_getitem seqwords (quad_base a) = Some cw ∧
      emitted cpuid a = iteration_events (UasmGlobals cpuid) labels a w cw.
Proof.
  intros Hst Hres. rewrite (main_loaded _ _ _ _ _ Hst) in Hres. cbn [result] in Hres.
  assert (∀ a, a ∈ trace →
            result (loop_body ucode seqwords labels a (UasmGlobals cpuid)) = inr ())
    as Hok.
  { intros a Ha.
    by apply (for_in_result_ok_inv _ (loop_body_globals ucode seqwords labels) trace). }
  split.
  - unfold visited. rewrite Hst.
    by apply (for_in_result_ok _ (loop_body_globals ucode seqwords labels)).
  - intros a Ha. specialize (Hok a Ha).
    destruct (loop_body_cases ucode seqwords labels a (UasmGlobals cpuid))
      as [[_ Ho]|[(_ & Ho & _)|(w & cw & Hlt & Hw & Hcw & Ho)]];
      [by rewrite Ho in Hok..|].
    exists w, cw. split_and!; [done..|]. by apply (emitted_ok cpuid ucode seqwords).
Qed.

Lemma length_lines (labels : gmap Z string) (f : Z → list string) (line : Z → string)
    (l : list Z) :
  (∀ b, b ∈ l → f b = spec_separator b ++ spec_label labels b ++ [line b]) →
  Z.of_nat (length (l ≫= f))
  = Z.of_nat (length l)
    + Z.of_nat (length (filter (λ b, b `mod` 4 = 0 ∧ 0 < b) l))
    + Z.of_nat (length (filter (λ b, is_Some (labels !! b)) l)).
Proof.
  induction l as [|b l IH]; intros Hf; [done|].
  rewrite bind_cons, length_app, Nat2Z.inj_add, IH, (Hf b), !filter_cons;
    [|left|intros c Hc; apply Hf; by right].
  unfold spec_separator, spec_label.
  destruct (labels !! b) as [name|] eqn:Hl; repeat case_decide;
    try match goal with
        | H : ¬ is_Some (Some _) |- _ => destruct H; by eexists
        | H : is_Some None |- _ => by destruct H
        end;
    cbn [length app]; lia.
Qed.

Lemma filter_separators (m : Z) (k : nat) :
  length (filter (λ b, b `mod` 4 = 0 ∧ 0 < b) (seqZ m (Z.of_nat k) ≫= quad_slots))
  = length (filter (λ q, 0 < q) (seqZ m (Z.of_nat k))).
Proof.
  revert m. induction k as [|k IH]; intros m; [by rewrite !seqZ_nil by lia|].
  rewrite (seqZ_cons m) by lia.
  replace (Z.pred (Z.of_nat (S k))) with (Z.of_nat k) by lia.
  rewrite bind_cons, filter_app, length_app, IH, (filter_cons _ m).
  unfold quad_slots. rewrite (filter_cons _ (4 * m)).
  rewrite (filter_cons_False _ (4 * m + 1)) by (rewrite mod4_add; lia).
  rewrite (filter_cons_False _ (4 * m + 2)) by (rewrite mod4_add; lia).
  rewrite filter_nil.
  assert ((4 * m) `mod` 4 = 0) by (rewrite <- (Z.add_0_r (4 * m)), mod4_add; lia).
  repeat case_decide; simpl; lia.
Qed.

Lemma trace_separators :
  Z.of_nat (length (filter (λ b, b `mod` 4 = 0 ∧ 0 < b) trace)) = 7935.
Proof.
  rewrite trace_quads.
  pose proof (filter_separators 0 (Z.to_nat 0x1f00)) as Hq.
  rewrite Z2Nat.id in Hq by lia. rewrite Hq. clear Hq.
  change 0x1f00 with (1 + 7935).
  rewrite seqZ_app, filter_app, length_app by lia.
  change (filter _ (seqZ 0 1)) with (@nil Z).
  assert (filter (λ q, 0 < q) (seqZ (0 + 1) 7935) = seqZ (0 + 1) 7935) as ->.
  { generalize (seqZ (0 + 1) 7935), (proj2 (Forall_seqZ (λ q, 0 < q) (0 + 1) 7935)).
    intros l Hl. assert (Forall (λ q, 0 < q) l) as Hall by (apply Hl; lia).
    clear Hl. induction Hall as [|q l Hq _ IH]; [done|].
    by rewrite filter_cons_True, IH by done. }
  rewrite length_seqZ. simpl length. lia.
Qed.

End normal_runs.

(** X6.  A run that ends normally prints one data line for each of the
    23808 addresses of the sequence, one blank line before each of the 7935
    quads after the first, and one label line for each address of the
    sequence that has a label. *)
Theorem X6_line_count {U : Uasm} (cpuid : string) (g : uasm_globals)
    (ucode seqwords : list Z) (labels : gmap Z string) :
  stores cpuid = Some (ucode, seqwords, labels) →
  result (main cpuid g) = inr () →
  Z.of_nat (length (stdout (events (main cpuid g))))
  = 23808 + 7935 + Z.of_nat (length (filter (λ a, is_Some (labels !! a)) trace)).
Proof.
  intros Hst Hres. destruct (normal_run cpuid g _ _ _ Hst Hres) as [Hvis Hit].
  rewrite main_stdout, Hvis.
  set (line a := match Py.list_getitem ucode a,
                       Py.list_getitem seqwords (quad_base a) with
                 | Some w, Some cw => rendered_line (UasmGlobals cpuid) a w cw
                 | _, _ => ""
                 end).
  rewrite (length_lines labels _ line).
  - rewrite trace_separators. rewrite trace_quads at 1.
    rewrite length_bind_quad_slots, length_seqZ. lia.
  - intros a (w & cw & Hw & Hcw & He)%Hit.
    rewrite He, stdout_iteration. subst line. cbv beta. by rewrite Hw, Hcw.
Qed.

Lemma X6_line_count_witness :
  Z.of_nat (length (stdout (events (main (U:=demo_uasm) "demo" demo_globals))))
  = 23808 + 7935 + Z.of_nat (length (filter (λ a, is_Some (demo_labels !! a)) trace)).
Proof.
  apply (X6_line_count (U:=demo_uasm) "demo" demo_globals
           demo_ucode demo_seqwords demo_labels eq_refl).
  apply (complete_run (U:=demo_uasm) "demo" demo_globals _ _ _ demo_stores
           demo_covers_ucode demo_covers_seqwords).
Defined.

(** X7.  In a run that ends normally the decoders are called for the
    addresses of the sequence in ascending order, three calls for each:
    the micro-op decoder, then the sequence-word decoder for the before
    phase, then for the after phase; no address is decoded twice and none
    is left out. *)
Theorem X7_decode_calls {U : Uasm} (cpuid : string) (g : uasm_globals)
    (ucode seqwords : list Z) (labels : gmap Z string) :
  stores cpuid = Some (ucode, seqwords, labels) →
  result (main cpuid g) = inr () →
  decode_calls (events (main cpuid g)) = trace ≫= calls_of.
Proof.
  intros Hst Hres. destruct (normal_run cpuid g _ _ _ Hst Hres) as [Hvis Hit].
  rewrite main_decode_calls, Hvis.
  apply Forall_bind_ext, Forall_forall.
  intros a (w & cw & _ & _ & ->)%Hit. apply decode_calls_iteration.
Qed.

Lemma X7_decode_calls_witness :
  decode_calls (events (main (U:=demo_uasm) "demo" demo_globals))
  = trace ≫= calls_of.
Proof.
  apply (X7_decode_calls (U:=demo_uasm) "demo" demo_globals
           demo_ucode demo_seqwords demo_labels eq_refl).
  apply (complete_run (U:=demo_uasm) "demo" demo_globals _ _ _ demo_stores
           demo_covers_ucode demo_covers_seqwords).
Defined.

(** ** More on strings *)

Lemma all_space_app (s t : string) :
  all_space (s +:+ t) = all_space s && all_space t.
Proof.
  induction s as [|c s IH]; [done|].
  rewrite app_String. simpl. by rewrite IH, andb_assoc.
Qed.

Lemma lstrip_all_space (s : string) : all_space s = true → Py.lstrip s = "".
Proof.
  induction s as [|c s IH]; [done|].
  simpl. intros [Hc Hs]%andb_prop. rewrite Hc. by apply IH.
Qed.

Lemma strip_empty_iff (s : string) : Py.strip s = "" ↔ all_space s = true.
Proof.
  split.
  - intros Hs. destruct (strip_split s) as (l & r & Heq & Hl & Hr).
    rewrite Hs, app_empty_l in Heq. by rewrite Heq, all_space_app, Hl, Hr.
  - intros Hs. unfold Py.strip. by rewrite lstrip_all_space.
Qed.

Lemma last_char_app (s t : string) : t ≠ "" → last_char (s +:+ t) = last_char t.
Proof.
  intros Ht. induction s as [|c s IH]; [done|].
  rewrite app_String. cbn [last_char]. rewrite IH.
  destruct (s +:+ t) eqn:E; [|done].
  destruct s, t; done.
Qed.

Lemma substring_skip (s t : string) (m : nat) :
  String.substring (String.length s) m (s +:+ t) = String.substring 0 m t.
Proof. induction s as [|c s IH]; [done|]. by rewrite app_String. Qed.

Lemma substring_take (s t : string) :
  String.substring 0 (String.length s) (s +:+ t) = s.
Proof.
  induction s as [|c s IH]; [by destruct t|].
  rewrite app_String. simpl. by rewrite IH.
Qed.

Lemma substring_field (s t u : string) :
  String.substring (String.length s) (String.length t) (s +:+ t +:+ u) = t.
Proof. by rewrite substring_skip, substring_take. Qed.

Lemma substring_at (s t u : string) (n m : nat) :
  String.length s = n → String.length t = m →
  String.substring n m (s +:+ t +:+ u) = t.
Proof. intros <- <-. apply substring_field. Qed.

Lemma length_format_0x_nonneg (k : nat) (n : Z) :
  0 ≤ n →
  String.length (Py.format_0x k n)
  = (k `max` String.length (Py.hex_digits n ""))%nat.
Proof.
  intros Hn. unfold Py.format_0x.
  rewrite (proj2 (Z.ltb_ge n 0)), Z.abs_eq, app_empty_l by lia.
  rewrite length_app_str, length_zeros. change (String.length "") with 0%nat. lia.
Qed.

Lemma format_0x_negative (k : nat) (n : Z) :
  n < 0 →
  Py.format_0x k n
  = "-" +:+ Py.zeros (k - 1 - String.length (Py.hex_digits (- n) ""))
        +:+ Py.hex_digits (- n) "".
Proof.
  intros Hn. unfold Py.format_0x.
  by rewrite (proj2 (Z.ltb_lt n 0)), Z.abs_neq by lia.
Qed.

Lemma length_format_0x_ge (k : nat) (n : Z) :
  (k ≤ String.length (Py.format_0x k n))%nat.
Proof.
  destruct (Z_lt_dec n 0) as [Hn|Hn].
  - rewrite format_0x_negative by done.
    rewrite !length_app_str, length_zeros.
    pose proof (length_hex_digits_gt 0 (- n) ltac:(simpl; lia)).
    change (String.length "-") with 1%nat. lia.
  - rewrite length_format_0x_nonneg by lia. lia.
Qed.

Section line_shape.
Context {U : Uasm}.

Lemma rendered_line_after (g : uasm_globals) (a w cw : Z) :
  ∃ head,
    rendered_line g a w cw
    = head +:+ " " +:+ Py.strip (process_seqword g a w cw false).
Proof.
  rewrite rendered_line_eq. eexists.
  rewrite <- !app_assoc_str. done.
Qed.

Lemma emitted_last (cpuid : string) ucode seqwords labels (a w cw : Z) :
  stores cpuid = Some (ucode, seqwords, labels) → a ∈ visited cpuid →
  Py.list_getitem ucode a = Some w →
  Py.list_getitem seqwords (quad_base a) = Some cw →
  last (emitted cpuid a)
  = Some (EvPrint (rendered_line (UasmGlobals cpuid) a w cw)).
Proof.
  intros Hst Ha Hw Hcw. pose proof (visited_range _ _ Ha) as [[_ Hlt] _].
  rewrite (emitted_ok _ _ _ _ _ _ _ Hst Hlt Hw Hcw).
  apply last_iteration_events.
Qed.

End line_shape.

(** ** The shape of a data line *)

(** X8.  The before annotation is left out of the data line exactly when
    the before-phase decode result consists of white space only (the empty
    result included); otherwise the trimmed result and one space stand
    before the mnemonic. *)
Theorem X8_blank_before_annotation {U : Uasm} (cpuid : string)
    (ucode seqwords : list Z) (labels : gmap Z string) (a w cw : Z) :
  stores cpuid = Some (ucode, seqwords, labels) →
  a ∈ visited cpuid →
  Py.list_getitem ucode a = Some w →
  Py.list_getitem seqwords (quad_base a) = Some cw →
  let g1 := UasmGlobals cpuid in
  let raw := process_seqword g1 a w cw true in
  let mnemonic := Py.strip (uop_disassemble g1 w a) in
  let after := Py.strip (process_seqword g1 a w cw false) in
  let field := "U" +:+ Py.format_0x 4 a +:+ ": " +:+ Py.format_0x 12 w +:+ " " in
  (Py.strip raw = "" ↔ all_space raw = true) ∧
  (all_space raw = true →
   last (emitted cpuid a)
   = Some (EvPrint (field +:+ mnemonic +:+ " " +:+ after))) ∧
  (all_space raw = false →
   Py.strip raw ≠ "" ∧
   last (emitted cpuid a)
   = Some (EvPrint (field +:+ Py.strip raw +:+ " " +:+ mnemonic +:+ " " +:+ after))).
Proof.
  intros Hst Ha Hw Hcw g1 raw mnemonic after field.
  rewrite (emitted_last _ _ _ _ _ _ _ Hst Ha Hw Hcw), rendered_line_eq.
  fold g1 raw mnemonic after. unfold spec_before_field, field.
  split_and!.
  - apply strip_empty_iff.
  - intros Hsp%strip_empty_iff. rewrite decide_True by done.
    by rewrite !app_assoc_str.
  - intros Hsp.
    assert (Py.strip raw ≠ "") as Hne.
    { intros Hs%strip_empty_iff. congruence. }
    split; [done|]. rewrite decide_False by done. by rewrite !app_assoc_str.
Qed.

Lemma X8_blank_before_annotation_witness :
  last (emitted (U:=demo_uasm) "demo" 5) = Some (EvPrint "U0005: 000000000006 OP ").
Proof.
  assert (5 ∈ visited (U:=demo_uasm) "demo") as Hvisited.
  { rewrite demo_visited. apply elem_of_trace. split; [lia | by vm_compute]. }
  pose proof (X8_blank_before_annotation (U:=demo_uasm) "demo"
                demo_ucode demo_seqwords demo_labels 5 6 4
                eq_refl Hvisited eq_refl eq_refl) as H.
  cbv zeta in H. destruct H as (_ & H & _). exact (H eq_refl).
Defined.

(** X9.  The space before the after annotation is printed whether or not
    there is an annotation: a data line ends with a space exactly when the
    after annotation is empty, and otherwise ends with the last character of
    the annotation, which is not white space. *)
Theorem X9_trailing_space {U : Uasm} (cpuid : string)
    (ucode seqwords : list Z) (labels : gmap Z string) (a w cw : Z) :
  stores cpuid = Some (ucode, seqwords, labels) →
  a ∈ visited cpuid →
  Py.list_getitem ucode a = Some w →
  Py.list_getitem seqwords (quad_base a) = Some cw →
  let after := Py.strip (process_seqword (UasmGlobals cpuid) a w cw false) in
  ∃ line,
    last (emitted cpuid a) = Some (EvPrint line) ∧
    (after = "" → last_char line = Some " "%char) ∧
    (after ≠ "" →
     last_char line = last_char after ∧
     ∃ c, last_char line = Some c ∧ Py.isspace c = false).
Proof.
  intros Hst Ha Hw Hcw after.
  exists (rendered_line (UasmGlobals cpuid) a w cw).
  split; [by apply (emitted_last cpuid ucode seqwords labels)|].
  destruct (rendered_line_after (UasmGlobals cpuid) a w cw) as [head ->].
  fold after. split.
  - intros ->. rewrite app_empty_r. apply last_char_snoc.
  - intros Hne. rewrite <- app_assoc_str, last_char_app by done.
    split; [done|].
    destruct (last_char after) as [c|] eqn:Hc.
    + exists c. split; [done|]. exact (strip_last _ c Hc).
    + exfalso. clear -Hne Hc. induction after as [|c [|d s] IH]; simplify_eq/=.
      by apply IH.
Qed.

Lemma X9_trailing_space_witness :
  ∃ line,
    last (emitted (U:=demo_uasm) "demo" 5) = Some (EvPrint line) ∧
    last_char line = Some " "%char.
Proof.
  assert (5 ∈ visited (U:=demo_uasm) "demo") as Hvisited.
  { rewrite demo_visited. apply elem_of_trace. split; [lia | by vm_compute]. }
  pose proof (X9_trailing_space (U:=demo_uasm) "demo"
                demo_ucode demo_seqwords demo_labels 5 6 4
                eq_refl Hvisited eq_refl eq_refl) as H.
  cbv zeta in H. destruct H as (line & Hlast & Hempty & _).
  exists line. split; [exact Hlast | exact (Hempty eq_refl)].
Defined.

(** X10.  The address and the word can be read back from a data line: the
    line starts with the letter U, its next four characters are hexadecimal
    digits that read as the address, and, for a word of at most 48 bits, the
    twelve characters from position 7 on read as the word. *)
Theorem X10_fields_read_back {U : Uasm} (cpuid : string)
    (ucode seqwords : list Z) (labels : gmap Z string) (a w cw : Z) :
  stores cpuid = Some (ucode, seqwords, labels) →
  a ∈ visited cpuid →
  Py.list_getitem ucode a = Some w →
  Py.list_getitem seqwords (quad_base a) = Some cw →
  ∃ line,
    last (emitted cpuid a) = Some (EvPrint line) ∧
    first_char line = Some "U"%char ∧
    line_address line = Some a ∧
    (0 ≤ w < 2 ^ 48 → line_word line = Some w).
Proof.
  intros Hst Ha Hw Hcw. pose proof (visited_range _ _ Ha) as [Hr _].
  exists (rendered_line (UasmGlobals cpuid) a w cw).
  split; [by apply (emitted_last cpuid ucode seqwords labels)|].
  rewrite rendered_line_eq.
  rewrite (format_0x_fixed 3 a) by (change (16 ^ Z.of_nat 4) with 65536; lia).
  split_and!.
  - done.
  - unfold line_address.
    rewrite (substring_at "U" (hex_fixed 4 a)) by (done || apply length_hex_fixed).
    apply hex_value_hex_fixed. change (16 ^ Z.of_nat 4) with 65536. lia.
  - intros Hw48. unfold line_word.
    rewrite (format_0x_fixed 11 w) by done.
    rewrite <- (app_assoc_str (hex_fixed 4 a) ": ").
    rewrite <- (app_assoc_str "U" (hex_fixed 4 a +:+ ": ")).
    rewrite (substring_at _ (hex_fixed 12 w));
      [by apply hex_value_hex_fixed | | apply length_hex_fixed].
    by rewrite !length_app_str, length_hex_fixed.
Qed.

Lemma X10_fields_read_back_witness :
  ∃ line,
    last (emitted (U:=demo_uasm) "demo" 6) = Some (EvPrint line) ∧
    line_address line = Some 6 ∧ line_word line = Some 7.
Proof.
  assert (6 ∈ visited (U:=demo_uasm) "demo") as Hvisited.
  { rewrite demo_visited. apply elem_of_trace. split; [lia | by vm_compute]. }
  destruct (X10_fields_read_back (U:=demo_uasm) "demo"
              demo_ucode demo_seqwords demo_labels 6 7 4
              eq_refl Hvisited eq_refl eq_refl)
    as (line & Hlast & _ & Haddr & Hword).
  exists line. split_and!; [exact Hlast | exact Haddr | apply Hword; lia].
Defined.

(** ** [format] for every integer and every width *)

Lemma hex_value_from_zeros (j : nat) (s : string) :
  hex_value_from 0 (Py.zeros j +:+ s) = hex_value_from 0 s.
Proof.
  induction j as [|j IH]; [done|].
  cbn [Py.zeros]. rewrite app_String. cbn [hex_value_from].
  change (hex_digit_value "0"%char) with (Some 0). exact IH.
Qed.

(** X11.  [format(n, '0<k>x')] is never narrower than [k] characters.  For
    [n >= 0] it is made of hexadecimal digits that read back as [n]; for
    [n < 0] it is a minus sign followed by digits that read back as [-n],
    and it has exactly [k] characters as long as [-n] fits in [k - 1]
    digits. *)
Theorem X11_format_roundtrip (k : nat) (n : Z) :
  (k ≤ String.length (Py.format_0x k n))%nat ∧
  (0 ≤ n → hex_value (Py.format_0x k n) = Some n) ∧
  (n < 0 →
   ∃ digits,
     Py.format_0x k n = "-" +:+ digits ∧ hex_value digits = Some (- n) ∧
     (- n < 16 ^ Z.of_nat (k - 1) → (0 < k - 1)%nat →
      String.length (Py.format_0x k n) = k)).
Proof.
  split_and!.
  - apply length_format_0x_ge.
  - intros Hn. unfold Py.format_0x.
    rewrite (proj2 (Z.ltb_ge n 0)), Z.abs_eq, app_empty_l by lia.
    unfold hex_value. rewrite hex_value_from_zeros. by apply hex_value_hex_digits.
  - intros Hn. rewrite format_0x_negative by done. eexists. split; [done|].
    split.
    + unfold hex_value. rewrite hex_value_from_zeros.
      apply hex_value_hex_digits. lia.
    + intros Hfit Hk. destruct (k - 1)%nat as [|k'] eqn:Hk'; [lia|].
      pose proof (length_hex_digits_le k' (- n) Hfit).
      rewrite !length_app_str, length_zeros.
      change (String.length "-") with 1%nat. lia.
Qed.

(** ** The paths of the dump files *)

Lemma endswith_sep_app (s t : string) :
  t ≠ "" → Py.endswith_sep (s +:+ t) = Py.endswith_sep t.
Proof.
  intros Ht. induction s as [|c s IH]; [done|].
  rewrite app_String. cbn [Py.endswith_sep]. rewrite IH.
  destruct (s +:+ t) eqn:E; [|done]. destruct s, t; done.
Qed.

Lemma startswith_sep_nonempty (s : string) : Py.startswith_sep s = true → s ≠ "".
Proof. by destruct s. Qed.

Lemma join2_dump_dir (cpuid file : string) :
  Py.startswith_sep file = false →
  Py.join2 (Py.join2 "." cpuid) file = dump_dir cpuid +:+ file.
Proof.
  intros Hfile. unfold dump_dir.
  unfold Py.join2 at 1. rewrite Hfile.
  unfold Py.join2. destruct (Py.startswith_sep cpuid) eqn:Hs.
  - pose proof (startswith_sep_nonempty _ Hs) as Hne.
    rewrite app_empty_l.
    rewrite (proj2 (String.eqb_neq cpuid "")) by done. cbn [orb].
    destruct (Py.endswith_sep cpuid); by rewrite ?app_empty_r, ?app_assoc_str.
  - cbn [String.eqb Py.endswith_sep Ascii.eqb Bool.eqb orb andb].
    change ("." +:+ "/" +:+ cpuid) with ("./" +:+ cpuid).
    destruct (String.eqb_spec cpuid "") as [->|Hne]; [done|].
    destruct (String.eqb_spec ("./" +:+ cpuid) "") as [?|_]; [done|].
    cbn [orb]. rewrite endswith_sep_app by done.
    destruct (Py.endswith_sep cpuid); by rewrite ?app_empty_r, ?app_assoc_str.
Qed.

(** X12.  The paths handed to the loaders.  The two arrays are read from
    [ms_array0.txt] and [ms_array1.txt] in the directory
    [os.path.join(".", cpuid)]: [./cpuid/] for a plain name, [cpuid/] itself
    when [cpuid] starts with a slash (the dot is dropped), and no second
    slash when [cpuid] is empty or ends with one.  The labels are read from
    [./labels.csv] whatever [cpuid] is.  The first array is requested right
    after the assignment of the global. *)
Theorem X12_dump_paths {U : Uasm} (cpuid : string) (g : uasm_globals) :
  ucode_path cpuid = dump_dir cpuid +:+ "ms_array0.txt" ∧
  seqwords_path cpuid = dump_dir cpuid +:+ "ms_array1.txt" ∧
  labels_path = "./labels.csv" ∧
  (Py.startswith_sep cpuid = false → cpuid ≠ "" → Py.endswith_sep cpuid = false →
   dump_dir cpuid = "./" +:+ cpuid +:+ "/") ∧
  (Py.startswith_sep cpuid = true → Py.endswith_sep cpuid = false →
   dump_dir cpuid = cpuid +:+ "/") ∧
  (∃ rest,
     events (main cpuid g)
     = EvSetCpuid cpuid :: EvLoadMsArray (dump_dir cpuid +:+ "ms_array0.txt") :: rest) ∧
  (is_Some (stores cpuid) →
   ∃ rest,
     events (main cpuid g)
     = [EvSetCpuid cpuid;
        EvLoadMsArray (dump_dir cpuid +:+ "ms_array0.txt");
        EvLoadMsArray (dump_dir cpuid +:+ "ms_array1.txt");
        EvLoadLabels "./labels.csv"] ++ rest).
Proof.
  assert (ucode_path cpuid = dump_dir cpuid +:+ "ms_array0.txt") as Hp0.
  { by apply join2_dump_dir. }
  assert (seqwords_path cpuid = dump_dir cpuid +:+ "ms_array1.txt") as Hp1.
  { by apply join2_dump_dir. }
  split_and!; [done..| | | |].
  - intros Hs Hne He. unfold dump_dir.
    by rewrite Hs, He, (proj2 (String.eqb_neq cpuid "")).
  - intros Hs He. unfold dump_dir.
    rewrite Hs, He, (proj2 (String.eqb_neq cpuid ""))
      by (by apply startswith_sep_nonempty).
    by rewrite app_empty_l.
  - rewrite main_events, <- Hp0. unfold prelude_events. by eexists.
  - intros [[[u s] l] Hst]. rewrite main_events, <- Hp0, <- Hp1.
    unfold prelude_events. unfold stores in Hst.
    destruct (load_ms_array_str_data _ (ucode_path cpuid)); [done|].
    destruct (load_ms_array_str_data _ (seqwords_path cpuid)); [done|].
    by eexists.
Qed.

Lemma X12_dump_paths_witness :
  dump_dir default_cpuid = "./0x000506CA/" ∧
  dump_dir "/srv/dumps" = "/srv/dumps/" ∧
  ∃ rest,
    events (main (U:=demo_uasm) "demo" demo_globals)
    = [EvSetCpuid "demo"; EvLoadMsArray "./demo/ms_array0.txt";
       EvLoadMsArray "./demo/ms_array1.txt"; EvLoadLabels "./labels.csv"] ++ rest.
Proof.
  split_and!.
  - exact (proj1 (proj2 (proj2 (proj2
             (X12_dump_paths (U:=demo_uasm) default_cpuid demo_globals))))
             eq_refl ltac:(done) eq_refl).
  - exact (proj1 (proj2 (proj2 (proj2 (proj2
             (X12_dump_paths (U:=demo_uasm) "/srv/dumps" demo_globals)))))
             eq_refl eq_refl).
  - apply (X12_dump_paths (U:=demo_uasm) "demo" demo_globals). by eexists.
Defined.

(** ** Labels only add lines *)

Section labels_frame.
Context {U : Uasm}.
Context (ucode seqwords : list Z).

Lemma loop_body_labels (labels labels' : gmap Z string) (a : Z) (g : uasm_globals) :
  result (loop_body ucode seqwords labels a g)
  = result (loop_body ucode seqwords labels' a g) ∧
  decode_calls (events (loop_body ucode seqwords labels a g))
  = decode_calls (events (loop_body ucode seqwords labels' a g)) ∧
  stdout (events (loop_body ucode seqwords ∅ a g))
  `sublist_of` stdout (events (loop_body ucode seqwords labels a g)).
Proof.
  destruct (Z_lt_dec a 0x7c00) as [Hlt|Hge];
    [|by rewrite !loop_body_assert by lia].
  destruct (Py.list_getitem ucode a) as [w|] eqn:Hw;
    [|by rewrite !loop_body_no_uop].
  destruct (Py.list_getitem seqwords (quad_base a)) as [cw|] eqn:Hcw;
    [|by rewrite !(loop_body_no_seqword _ _ _ _ w)].
  rewrite !(loop_body_ok _ _ _ _ w cw) by done. cbn [result events].
  split_and!; [done | by rewrite !decode_calls_iteration |].
  rewrite !stdout_iteration. apply sublist_app; [done|].
  apply sublist_app; [|done]. unfold spec_label. rewrite lookup_empty.
  apply sublist_nil_l.
Qed.

Lemma for_in_labels (labels labels' : gmap Z string) (l : list Z) (g : uasm_globals) :
  result (for_in l (loop_body ucode seqwords labels) g)
  = result (for_in l (loop_body ucode seqwords labels') g) ∧
  iterated l (loop_body ucode seqwords labels) g
  = iterated l (loop_body ucode seqwords labels') g ∧
  decode_calls (events (for_in l (loop_body ucode seqwords labels) g))
  = decode_calls (events (for_in l (loop_body ucode seqwords labels') g)) ∧
  stdout (events (for_in l (loop_body ucode seqwords ∅) g))
  `sublist_of` stdout (events (for_in l (loop_body ucode seqwords labels) g)).
Proof.
  induction l as [|a l (IHres & IHit & IHcalls & IHout)]; [done|].
  rewrite !for_in_cons by apply loop_body_globals. cbn [iterated].
  rewrite !loop_body_globals.
  destruct (loop_body_labels labels labels' a g) as (Hres & Hcalls & Hout).
  destruct (loop_body_labels labels ∅ a g) as (Hres0 & _ & _).
  rewrite <- Hres0, <- Hres.
  destruct (result (loop_body ucode seqwords labels a g)) as [e|[]];
    cbn [result events].
  - done.
  - rewrite !decode_calls_app, !stdout_app, IHres, IHit, IHcalls, Hcalls.
    split_and!; [done..|]. by apply sublist_app.
Qed.

End labels_frame.

(** X13.  The label table has no influence on how the loop runs: for any two
    tables the loop visits the same addresses, makes the same decode calls
    and ends the same way; and the output without labels is the output with
    labels from which lines have been removed. *)
Theorem X13_labels_only_add_lines {U : Uasm} (ucode seqwords : list Z)
    (labels labels' : gmap Z string) (g : uasm_globals) :
  result (trace_loop ucode seqwords labels g)
  = result (trace_loop ucode seqwords labels' g) ∧
  iterated trace (loop_body ucode seqwords labels) g
  = iterated trace (loop_body ucode seqwords labels') g ∧
  decode_calls (events (trace_loop ucode seqwords labels g))
  = decode_calls (events (trace_loop ucode seqwords labels' g)) ∧
  stdout (events (trace_loop ucode seqwords ∅ g))
  `sublist_of` stdout (events (trace_loop ucode seqwords labels g)).
Proof.
  unfold trace_loop. generalize trace. intros l.
  exact (for_in_labels ucode seqwords labels labels' l g).
Qed.

(** ** Blank lines *)

Lemma filter_bind {A B} (P : B → Prop) `{∀ x, Decision (P x)}
    (f : A → list B) (l : list A) :
  filter P (l ≫= f) = l ≫= λ x, filter P (f x).
Proof.
  induction l as [|x l IH]; [done|].
  by rewrite !bind_cons, filter_app, IH.
Qed.

Lemma length_bind_separator (l : list Z) :
  length (l ≫= spec_separator)
  = length (filter (λ b, b `mod` 4 = 0 ∧ 0 < b) l).
Proof.
  induction l as [|b l IH]; [done|].
  rewrite bind_cons, length_app, IH, filter_cons. unfold spec_separator.
  by case_decide.
Qed.

Lemma filter_blank_iteration (labels : gmap Z string) (a : Z) (line : string) :
  line ≠ "" →
  filter (λ s, s = "") (spec_separator a ++ spec_label labels a ++ [line])
  = spec_separator a.
Proof.
  intros Hline. rewrite !filter_app.
  assert (filter (λ s, s = "") (spec_separator a) = spec_separator a) as ->.
  { unfold spec_separator. by case_decide. }
  assert (filter (λ s, s = "") (spec_label labels a) = []) as ->.
  { unfold spec_label. destruct (labels !! a) as [name|]; [|done].
    rewrite filter_cons_False; [done|]. apply label_line_nonempty. }
  rewrite filter_cons_False by done. by rewrite app_nil_r.
Qed.

(** X14.  In the output of a run that ends normally the blank lines are
    exactly the quad separators: a label line and a data line are never
    empty, so the output holds 7935 blank lines, and it does not begin with
    one. *)
Theorem X14_blank_lines {U : Uasm} (cpuid : string) (g : uasm_globals)
    (ucode seqwords : list Z) (labels : gmap Z string) :
  stores cpuid = Some (ucode, seqwords, labels) →
  result (main cpuid g) = inr () →
  Z.of_nat (length (filter (λ s, s = "") (stdout (events (main cpuid g))))) = 7935 ∧
  ∃ first, head (stdout (events (main cpuid g))) = Some first ∧ first ≠ "".
Proof.
  intros Hst Hres. destruct (normal_run cpuid g _ _ _ Hst Hres) as [Hvis Hit].
  rewrite main_stdout, Hvis. split.
  - rewrite filter_bind.
    rewrite (Forall_bind_ext _ spec_separator).
    + by rewrite length_bind_separator, trace_separators.
    + apply Forall_forall. intros a (w & cw & _ & _ & ->)%Hit.
      rewrite stdout_iteration. apply filter_blank_iteration, data_line_nonempty.
  - rewrite trace_cons, bind_cons.
    destruct (Hit 0) as (w & cw & _ & _ & ->); [rewrite trace_cons; left|].
    rewrite stdout_iteration. unfold spec_separator.
    rewrite decide_False by lia. rewrite app_nil_l.
    unfold spec_label. destruct (labels !! 0) as [name|].
    + exists (name +:+ ":"). split; [done|]. apply label_line_nonempty.
    + eexists. split; [done|]. apply data_line_nonempty.
Qed.

Lemma X14_blank_lines_witness :
  Z.of_nat (length (filter (λ s, s = "")
                      (stdout (events (main (U:=demo_uasm) "demo" demo_globals)))))
  = 7935.
Proof.
  apply (X14_blank_lines (U:=demo_uasm) "demo" demo_globals
           demo_ucode demo_seqwords demo_labels eq_refl).
  apply (complete_run (U:=demo_uasm) "demo" demo_globals _ _ _ demo_stores
           demo_covers_ucode demo_covers_seqwords).
Defined.

(** ** A truncated array *)

Lemma filter_Forall_id {A} (P : A → Prop) `{∀ x, Decision (P x)} (l : list A) :
  Forall P l → filter P l = l.
Proof.
  induction 1 as [|x l Hx _ IH]; [done|]. by rewrite filter_cons_True, IH.
Qed.

Lemma filter_Forall_nil {A} (P : A → Prop) `{∀ x, Decision (P x)} (l : list A) :
  Forall (λ x, ¬ P x) l → filter P l = [].
Proof.
  induction 1 as [|x l Hx _ IH]; [done|]. by rewrite filter_cons_False, IH.
Qed.

Lemma sorted_filter_split (l : list Z) (n : Z) :
  StronglySorted Z.lt l →
  l = filter (λ b, b < n) l ++ filter (λ b, n ≤ b) l.
Proof.
  induction 1 as [|x l Hl IH Hx]; [done|].
  destruct (Z_lt_dec x n) as [Hlt|Hge].
  - rewrite filter_cons_True, filter_cons_False by lia.
    by rewrite <- app_comm_cons, <- IH.
  - assert (Forall (λ b, n ≤ b) l) as Hall.
    { eapply Forall_impl; [exact Hx|]. intros y Hy. simpl in Hy. lia. }
    rewrite filter_cons_False, filter_cons_True by lia.
    rewrite (filter_Forall_id (λ b, n ≤ b)) by done.
    rewrite (filter_Forall_nil (λ b, b < n)); [done|].
    eapply Forall_impl; [exact Hall|]. intros y Hy. simpl in Hy. lia.
Qed.

(** X15.  When [ucode] is truncated to [n < 0x7bff] entries (and [seqwords]
    is long enough), the run decodes exactly the addresses of the sequence
    below [n], in order, and then ends with [IndexError] at the first
    address of the sequence that is not below [n], having printed for it at
    most its blank separator. *)
Theorem X15_truncated_ucode {U : Uasm} (cpuid : string) (g : uasm_globals)
    (ucode seqwords : list Z) (labels : gmap Z string) :
  stores cpuid = Some (ucode, seqwords, labels) →
  Z.of_nat (length ucode) < 0x7bff →
  0x7bfd ≤ Z.of_nat (length seqwords) →
  let n := Z.of_nat (length ucode) in
  result (main cpuid g) = inl IndexError ∧
  decode_calls (events (main cpuid g)) = (filter (λ b, b < n) trace ≫= calls_of) ∧
  ∃ a,
    head (filter (λ b, n ≤ b) trace) = Some a ∧
    visited cpuid = filter (λ b, b < n) trace ++ [a] ∧
    stdout (events (main cpuid g))
    = (filter (λ b, b < n) trace ≫= λ b, stdout (emitted cpuid b))
      ++ spec_separator a.
Proof.
  intros Hst Hu Hs n.
  pose proof (sorted_filter_split trace n trace_sorted) as Hsplit.
  destruct (filter (λ b, n ≤ b) trace) as [|a post] eqn:Hrest.
  { exfalso.
    assert (0x7bfe ∈ filter (λ b, n ≤ b) trace) as Hin.
    { apply list_elem_of_filter. split; [lia|].
      apply elem_of_trace. split; [lia|done]. }
    rewrite Hrest in Hin. by apply elem_of_nil in Hin. }
  assert (a ∈ filter (λ b, n ≤ b) trace) as [Hna Hatrace]%list_elem_of_filter
    by (rewrite Hrest; left).
  apply elem_of_trace in Hatrace as [Ha _].
  destruct (aborted_run cpuid g ucode seqwords labels
              (filter (λ b, b < n) trace) post a Hst Hsplit)
    as (Hres & Hvis & Hema & Hok).
  - intros b [Hbn [Hb _]%elem_of_trace]%list_elem_of_filter.
    pose proof (quad_base_range b Hb). pose proof (quad_base_le b Hb).
    split; apply list_getitem_is_Some; lia.
  - left. apply list_getitem_None; lia.
  - split_and!; [done| |exists a; split_and!; [done..|]].
    + rewrite main_decode_calls, Hvis, bind_app, bind_singleton.
      rewrite Hema, decode_calls_separator, app_nil_r.
      apply Forall_bind_ext, Forall_forall. intros b (w & cw & ->)%Hok.
      apply decode_calls_iteration.
    + rewrite main_stdout, Hvis, bind_app, bind_singleton.
      by rewrite Hema, stdout_separator.
Qed.

Lemma X15_truncated_ucode_witness :
  result (main (U:=short_uasm) "demo" demo_globals) = inl IndexError ∧
  decode_calls (events (main (U:=short_uasm) "demo" demo_globals))
  = (filter (λ b, b < 5) trace ≫= calls_of).
Proof.
  assert (0x7bfd ≤ Z.of_nat (length demo_seqwords)) as Hlen by (by vm_compute).
  assert (Z.of_nat (length [1; 2; 3; 4; 5]) < 0x7bff) as Hshort by (by vm_compute).
  pose proof (X15_truncated_ucode (U:=short_uasm) "demo" demo_globals
                [1; 2; 3; 4; 5] demo_seqwords demo_labels eq_refl Hshort Hlen) as H.
  cbv zeta in H. destruct H as (Hres & Hcalls & _). by split.
Defined.
